(** * generate_report.py: pension-enrollment report generator

    A shallow embedding of the script [generate_report.py]: the loader
    (existence check, [pd.read_csv], the derived province column), the two
    reshaping steps ([DataFrame.melt] and [groupby(...).agg(sum)]), the
    serialisation of the three figures and the f-string HTML template, and
    the final write of the report.

    Library calls are modelled by what they do to the values the script
    hands them: [str.split] follows CPython's whitespace splitter, [melt]
    and [groupby] follow pandas' row order, and the two parts that cannot
    be embedded (CSV parsing, Plotly's rendering of a figure) are fields
    of the [Library] class below. *)

From Stdlib Require Import ZArith NArith Lia List Ascii String.
From stdpp Require Import gmap strings list sorting.

Local Open Scope Z_scope.

(** ** Python values *)

(** A Python [str] is a sequence of Unicode code points. *)
Definition pystr := list N.

(** [str.isspace] for one code point, as CPython's [_PyUnicode_IsWhitespace]
    decides it; this is the test [str.split()] uses when no separator is
    given. *)
Definition isspace (c : N) : bool :=
  (((0x09 <=? c) && (c <=? 0x0D)) || ((0x1C <=? c) && (c <=? 0x20))
   || (c =? 0x85) || (c =? 0xA0) || (c =? 0x1680)
   || ((0x2000 <=? c) && (c <=? 0x200A))
   || (c =? 0x2028) || (c =? 0x2029) || (c =? 0x202F) || (c =? 0x205F)
   || (c =? 0x3000))%N.

(** The exceptions the script can die of. [LoadError] stands for whatever
    [pd.read_csv] or a column lookup raises (decoding, parsing, a missing
    column). *)
Inductive exception :=
| AttributeError
| IndexError
| LoadError (msg : string).

Inductive result (A : Type) :=
| Ok (a : A)
| Raise (e : exception).
Arguments Ok {A} a.
Arguments Raise {A} e.

(** *** [str.split()] *)

(** The two inner loops of CPython's [split_whitespace]:
    [while i < len && ISSPACE(s[i]) i++] and
    [while i < len && !ISSPACE(s[i]) i++]. *)
Fixpoint skip_space (s : pystr) : pystr :=
  match s with
  | [] => []
  | c :: r => if isspace c then skip_space r else s
  end.

Fixpoint scan_token (s : pystr) : pystr * pystr :=
  match s with
  | [] => ([], [])
  | c :: r =>
      if isspace c then ([], s)
      else let (t, rest) := scan_token r in (c :: t, rest)
  end.

(** The outer loop. Each turn consumes at least one code point, so
    [length s] turns and one more to see the end are enough. *)
Fixpoint split_loop (turns : nat) (s : pystr) : list pystr :=
  match turns with
  | O => []
  | S turns' =>
      match skip_space s with
      | [] => []
      | c :: r =>
          let (t, rest) := scan_token r in
          (c :: t) :: split_loop turns' rest
      end
  end.

Definition split (s : pystr) : list pystr := split_loop (S (length s)) s.

(** ** The table *)

(** A cell of an object column after [pd.read_csv]: a string, or the float
    NaN that pandas puts where the field is empty. *)
Inductive cell :=
| Str (s : pystr)
| NaN.

(** [int64] cells: the dtype pandas infers for a column of integers. Sums
    over them wrap around. *)
Definition wrap64 (z : Z) : Z := (z + 2^63) mod 2^64 - 2^63.
Definition int64_add (a b : Z) : Z := wrap64 (a + b).
Definition int64_sum (l : list Z) : Z := fold_left int64_add l 0.
Definition in_int64 (z : Z) : Prop := - 2^63 <= z < 2^63.

(** The columns of the CSV file the script reads. The column
    [연령(구분)] is written [연령_구분]. *)
Record csv_row := {
  시군구명 : cell;
  연령_구분 : cell;
  사업장가입자 : Z;
  지역가입자 : Z;
  임의가입자 : Z;
  임의계속가입자 : Z
}.

(** A row of [df] after line 19 added the column [시도]. *)
Record row := {
  csv : csv_row;
  시도 : pystr
}.

(** [lambda x: x.split()[0]]: a float has no [split]; index 0 of an empty
    list raises. *)
Definition first_of_split (x : cell) : result pystr :=
  match x with
  | NaN => Raise AttributeError
  | Str s =>
      match split s with
      | [] => Raise IndexError
      | t :: _ => Ok t
      end
  end.

(** [df['시도'] = df['시군구명'].apply(lambda x: x.split()[0])]: the
    lambda runs on the rows in order and the first exception ends it. *)
Fixpoint assign_시도 (df : list csv_row) : result (list row) :=
  match df with
  | [] => Ok []
  | r :: df' =>
      match first_of_split (시군구명 r) with
      | Raise e => Raise e
      | Ok t =>
          match assign_시도 df' with
          | Raise e => Raise e
          | Ok rows => Ok ({| csv := r; 시도 := t |} :: rows)
          end
      end
  end.

(** *** melt *)

(** The four value columns, in the order of [value_vars]. *)
Inductive value_var := V사업장가입자 | V지역가입자 | V임의가입자 | V임의계속가입자.

Definition value_vars : list value_var :=
  [V사업장가입자; V지역가입자; V임의가입자; V임의계속가입자].

Definition value_of (v : value_var) (r : row) : Z :=
  match v with
  | V사업장가입자 => 사업장가입자 (csv r)
  | V지역가입자 => 지역가입자 (csv r)
  | V임의가입자 => 임의가입자 (csv r)
  | V임의계속가입자 => 임의계속가입자 (csv r)
  end.

(** A row of [df_melted]: the two identifier columns, the name of the value
    column it came from ([가입유형]) and that column's value ([가입자수]). *)
Record melted_row := {
  m연령_구분 : cell;
  m시도 : pystr;
  가입유형 : value_var;
  가입자수 : Z
}.

Definition melted_cell (v : value_var) (r : row) : melted_row :=
  {| m연령_구분 := 연령_구분 (csv r); m시도 := 시도 r;
     가입유형 := v; 가입자수 := value_of v r |}.

(** [df.melt(id_vars, value_vars, var_name, value_name)]: pandas stacks the
    value columns one under the other, each a full pass over the frame,
    and tiles the identifier columns next to them. The counts are copied
    as they are, which is what pandas does when the four value columns
    have one integer dtype; [pandas_melt] below adds the cast to the
    common dtype of the stack. *)
Definition melt (df : list row) : list melted_row :=
  flat_map (fun v => map (melted_cell v) df) value_vars.

(** *** groupby and sum *)

(** Python compares two [str] code point by code point. *)
Definition str_compare : pystr -> pystr -> comparison := list_compare N.compare.
Definition str_lt (a b : pystr) : Prop := str_compare a b = Lt.
Definition str_le (a b : pystr) : Prop := str_compare a b <> Gt.

#[global] Instance str_le_dec : RelDecision str_le.
Proof.
  intros a b. unfold str_le.
  destruct (str_compare a b); [left | left | right]; congruence.
Defined.

(** A row of [city_sum]: the group key, put back as a column by
    [reset_index()], and the three sums. *)
Record city_row := {
  c시도 : pystr;
  c사업장가입자 : Z;
  c지역가입자 : Z;
  c임의가입자 : Z
}.

(** The group keys of [df.groupby('시도')]: the distinct values of the
    column, sorted ([sort=True] is the default). *)
Definition group_keys (df : list row) : list pystr :=
  merge_sort str_le (remove_dups (map 시도 df)).

Definition group (k : pystr) (df : list row) : list row :=
  filter (fun r => 시도 r = k) df.

Definition agg_sum (k : pystr) (df : list row) : city_row :=
  let g := group k df in
  {| c시도 := k;
     c사업장가입자 := int64_sum (map (fun r => 사업장가입자 (csv r)) g);
     c지역가입자 := int64_sum (map (fun r => 지역가입자 (csv r)) g);
     c임의가입자 := int64_sum (map (fun r => 임의가입자 (csv r)) g) |}.

(** [df.groupby('시도').agg({...: 'sum'}).reset_index()] *)
Definition groupby_sum (df : list row) : list city_row :=
  map (fun k => agg_sum k df) (group_keys df).

(** ** Figures and their serialisation *)

(** The three figures, each with the table it was built from
    ([px.sunburst], [px.treemap], [px.scatter]); building one is taken to
    succeed. *)
Inductive figure :=
| sunburst (data : list melted_row)
| treemap (data : list row)
| scatter (data : list city_row).

(** The argument [include_plotlyjs] of [Figure.to_html]. *)
Inductive include_plotlyjs := cdn | no_plotlyjs.

(** What the script takes from pandas and Plotly without this development
    looking inside: the parser of the CSV text, the markup Plotly writes
    for a figure ([full_html=False]; the last argument is the random
    identifier Plotly draws for the [div]), and the reference to plotly.js
    that [include_plotlyjs='cdn'] asks for. *)
Class Library := {
  read_csv : string -> result (list csv_row);
  to_html : figure -> include_plotlyjs -> N -> string;
  plotlyjs_ref : string
}.

(** ** Text of the report *)

Definition dq : string := String (ascii_of_nat 34) EmptyString.
Definition nl : string := String (ascii_of_nat 10) EmptyString.

(** One line of the template: its pieces between double quotes, and the
    line feed. *)
Definition ln (pieces : list string) : string := String.concat dq pieces +:+ nl.
Definition lines (l : list string) : string := fold_right String.append EmptyString l.

(** The template from its first character to the hole [{div_age}]
    (source lines 68 to 267). *)
Definition html_before_age : string :=
  lines [
    ln [EmptyString];
    ln ["<!DOCTYPE html>"];
    ln ["<html lang="; "ko"; ">"];
    ln ["<head>"];
    ln ["    <meta charset="; "UTF-8"; ">"];
    ln ["    <meta name="; "viewport"; " content="; "width=device-width, initial-scale=1.0"; ">"];
    ln ["    <title>국민연금 청년계층 데이터 분석 보고서</title>"];
    ln ["    <style>"];
    ln ["        :root {"];
    ln ["            --sidebar-width: 300px;"];
    ln ["            --main-max-width: 900px;"];
    ln ["            --font-main: -apple-system, BlinkMacSystemFont, "; "Segoe UI"; ", Roboto, "; "Helvetica Neue"; ", Arial, sans-serif;"];
    ln ["            --color-text: #333;"];
    ln ["            --color-bg: #fff;"];
    ln ["            --color-link: #007bff;"];
    ln ["            --color-border: #e9ecef;"];
    ln ["            --color-sidebar-bg: #f8f9fa;"];
    ln ["        }"];
    ln [EmptyString];
    ln ["        body {"];
    ln ["            font-family: var(--font-main);"];
    ln ["            color: var(--color-text);"];
    ln ["            margin: 0;"];
    ln ["            display: flex;"];
    ln ["            min-height: 100vh;"];
    ln ["        }"];
    ln [EmptyString];
    ln ["        /* Sidebar Styling */"];
    ln ["        .sidebar {"];
    ln ["            width: var(--sidebar-width);"];
    ln ["            background-color: var(--color-sidebar-bg);"];
    ln ["            border-right: 1px solid var(--color-border);"];
    ln ["            padding: 2rem;"];
    ln ["            position: fixed;"];
    ln ["            height: 100vh;"];
    ln ["            overflow-y: auto;"];
    ln ["            flex-shrink: 0;"];
    ln ["        }"];
    ln [EmptyString];
    ln ["        .sidebar-title {"];
    ln ["            font-size: 1.2rem;"];
    ln ["            font-weight: 700;"];
    ln ["            margin-bottom: 1rem;"];
    ln ["            color: #2c3e50;"];
    ln ["        }"];
    ln [EmptyString];
    ln ["        .sidebar-nav ul {"];
    ln ["            list-style: none;"];
    ln ["            padding: 0;"];
    ln ["        }"];
    ln [EmptyString];
    ln ["        .sidebar-nav li {"];
    ln ["            margin-bottom: 0.5rem;"];
    ln ["        }"];
    ln [EmptyString];
    ln ["        .sidebar-nav a {"];
    ln ["            text-decoration: none;"];
    ln ["            color: #555;"];
    ln ["            font-size: 0.95rem;"];
    ln ["            transition: color 0.2s;"];
    ln ["        }"];
    ln [EmptyString];
    ln ["        .sidebar-nav a:hover {"];
    ln ["            color: var(--color-link);"];
    ln ["        }"];
    ln ["        "];
    ln ["        .sidebar-footer {"];
    ln ["            margin-top: 2rem;"];
    ln ["            font-size: 0.8rem;"];
    ln ["            color: #888;"];
    ln ["        }"];
    ln [EmptyString];
    ln ["        /* Main Content Styling */"];
    ln ["        .main-content {"];
    ln ["            flex-grow: 1;"];
    ln ["            margin-left: var(--sidebar-width);"];
    ln ["            padding: 2rem 4rem;"];
    ln ["            max-width: 100%;"];
    ln ["        }"];
    ln [EmptyString];
    ln ["        .container {"];
    ln ["            max-width: var(--main-max-width);"];
    ln ["            margin: 0 auto;"];
    ln ["        }"];
    ln [EmptyString];
    ln ["        h1 { "];
    ln ["            font-size: 2.2rem; "];
    ln ["            margin-bottom: 0.5rem; "];
    ln ["            font-weight: 700;"];
    ln ["            border-bottom: 1px solid #eee;"];
    ln ["            padding-bottom: 0.5rem;"];
    ln ["        }"];
    ln ["        "];
    ln ["        h2 { "];
    ln ["            font-size: 1.5rem; "];
    ln ["            margin-top: 3rem; "];
    ln ["            margin-bottom: 1rem; "];
    ln ["            color: #2c3e50;"];
    ln ["            border-bottom: 1px solid #eee;"];
    ln ["            padding-bottom: 0.3rem; "];
    ln ["        }"];
    ln [EmptyString];
    ln ["        h3 {"];
    ln ["            font-size: 1.2rem;"];
    ln ["            margin-top: 2rem;"];
    ln ["            color: #495057;"];
    ln ["        }"];
    ln [EmptyString];
    ln ["        p {"];
    ln ["            line-height: 1.7;"];
    ln ["            margin-bottom: 1.5rem;"];
    ln ["            color: #444;"];
    ln ["        }"];
    ln [EmptyString];
    ln ["        .chart-container {"];
    ln ["            margin: 2rem 0;"];
    ln ["            border: 1px solid #eee;"];
    ln ["            border-radius: 8px;"];
    ln ["            padding: 10px;"];
    ln ["            box-shadow: 0 2px 10px rgba(0,0,0,0.03);"];
    ln ["            background: white;"];
    ln ["        }"];
    ln ["        "];
    ln ["        .callout {"];
    ln ["            background-color: #f0f7ff;"];
    ln ["            border-left: 5px solid #007bff;"];
    ln ["            padding: 1rem;"];
    ln ["            margin-bottom: 1.5rem;"];
    ln ["            border-radius: 4px;"];
    ln ["        }"];
    ln [EmptyString];
    ln ["        /* Responsive Design */"];
    ln ["        @media (max-width: 768px) {"];
    ln ["            body { flex-direction: column; }"];
    ln ["            .sidebar { "];
    ln ["                width: 100%; "];
    ln ["                height: auto; "];
    ln ["                position: relative; "];
    ln ["                border-right: none;"];
    ln ["                border-bottom: 1px solid var(--color-border);"];
    ln ["            }"];
    ln ["            .main-content { "];
    ln ["                margin-left: 0; "];
    ln ["                padding: 1.5rem; "];
    ln ["            }"];
    ln ["        }"];
    ln ["    </style>"];
    ln ["</head>"];
    ln ["<body>"];
    ln [EmptyString];
    ln ["    <!-- Sidebar -->"];
    ln ["    <nav class="; "sidebar"; ">"];
    ln ["        <div class="; "sidebar-title"; ">청년계층 국민연금 분석</div>"];
    ln ["        <div class="; "sidebar-nav"; ">"];
    ln ["            <ul>"];
    ln ["                <li><a href="; "#overview"; ">1. 개요</a></li>"];
    ln ["                <li><a href="; "#age-analysis"; ">2. 연령별 가입 구조</a></li>"];
    ln ["                <li><a href="; "#region-analysis"; ">3. 지역별 일자리 분포</a></li>"];
    ln ["                <li><a href="; "#comparison"; ">4. 고용 안정성 비교</a></li>"];
    ln ["            </ul>"];
    ln ["        </div>"];
    ln ["        <div class="; "sidebar-footer"; ">"];
    ln ["            <p>Data Source: 국민연금공단 (2024.12.31)</p>"];
    ln ["            <p>Generated by: Python & Plotly</p>"];
    ln ["        </div>"];
    ln ["    </nav>"];
    ln [EmptyString];
    ln ["    <!-- Main Content -->"];
    ln ["    <main class="; "main-content"; ">"];
    ln ["        <div class="; "container"; ">"];
    ln ["            "];
    ln ["            <header>"];
    ln ["                <h1 class="; "title"; ">국민연금 시군구별 청년계층 가입자 현황 분석</h1>"];
    ln ["                <p class="; "subtitle"; " style="; "color: #666; font-size: 1.1rem;"; ">2024년 12월 말 기준 데이터 분석 보고서</p>"];
    ln ["            </header>"];
    ln [EmptyString];
    ln ["            <section id="; "overview"; ">"];
    ln ["                <h2>1. 개요</h2>"];
    ln ["                <div class="; "callout"; ">"];
    ln ["                    <strong>분석 목적:</strong> 본 보고서는 국민연금공단의 시군구별 청년계층 가입자 현황 데이터를 바탕으로, 연령별 가입 유형, 지역별 사업장 가입자 분포, 그리고 고용 형태별(직장인 vs 프리랜서/자영업) 상관관계를 시각화하여 분석합니다."];
    ln ["                </div>"];
    ln ["                <p>"];
    ln ["                    이 보고서는 <strong>Quarto</strong> 스타일을 지향하는 자동 생성된 HTML 문서입니다."];
    ln ["                    주요 분석 내용은 다음과 같습니다:"];
    ln ["                </p>"];
    ln ["                <ul>"];
    ln ["                    <li>연령대에 따른 가입 유형(사업장, 지역, 임의 등)의 비중 변화</li>"];
    ln ["                    <li>전국 시군구별 청년 일자리(사업장 가입자)의 수도권 집중도</li>"];
    ln ["                    <li>시도별 직장 가입자와 지역 가입자 간의 규모 비교</li>"];
    ln ["                </ul>"];
    ln ["            </section>"];
    ln [EmptyString];
    ln ["            <section id="; "age-analysis"; ">"];
    ln ["                <h2>2. 연령별 가입 구조 (Sunburst Chart)</h2>"];
    ln ["                <p>"];
    ln ["                    연령대별로 국민연금 가입 유형이 어떻게 다른지 계층적으로 시각화하였습니다. "];
    ln ["                    중앙에서 바깥쪽으로 나갈수록 세부적인 분류를 보여줍니다."];
    ln ["                </p>"];
    ln ["                <div class="; "chart-container"; ">"]
  ] +:+ "                    ".

(** From the hole [{div_age}] to the hole [{div_region}] (lines 267 to 281). *)
Definition html_age_to_region : string :=
  lines [
    ln [EmptyString];
    ln ["                </div>"];
    ln ["                <p>"];
    ln ["                    * 차트의 섹션을 클릭하면 해당 카테고리를 확대해서 볼 수 있습니다."];
    ln ["                </p>"];
    ln ["            </section>"];
    ln [EmptyString];
    ln ["            <section id="; "region-analysis"; ">"];
    ln ["                <h2>3. 지역별 일자리 분포 (Treemap)</h2>"];
    ln ["                <p>"];
    ln ["                    사업장 가입자 수(직장인)의 규모를 사각형의 크기로 표현했습니다. "];
    ln ["                    서울 및 수도권 지역의 사각형 크기를 통해 일자리 집중 현상을 직관적으로 확인할 수 있습니다."];
    ln ["                </p>"];
    ln ["                <div class="; "chart-container"; ">"]
  ] +:+ "                    ".

(** From the hole [{div_region}] to the hole [{div_compare}] (lines 281 to 292). *)
Definition html_region_to_compare : string :=
  lines [
    ln [EmptyString];
    ln ["                </div>"];
    ln ["            </section>"];
    ln [EmptyString];
    ln ["            <section id="; "comparison"; ">"];
    ln ["                <h2>4. 고용 안정성 및 규모 비교 (Bubble Chart)</h2>"];
    ln ["                <p>"];
    ln ["                    각 시도의 <strong>지역가입자(X축)</strong>와 <strong>사업장가입자(Y축)</strong> 수를 비교합니다."];
    ln ["                    원의 크기는 사업장 가입자(직장인)의 규모를 나타냅니다."];
    ln ["                </p>"];
    ln ["                <div class="; "chart-container"; ">"]
  ] +:+ "                    ".

(** From the hole [{div_compare}] to the closing quotes (lines 292 to 307). *)
Definition html_after_compare : string :=
  lines [
    ln [EmptyString];
    ln ["                </div>"];
    ln ["                <p>"];
    ln ["                    대각선 위쪽에 위치할수록 자영업/프리랜서 대비 직장 가입자 비율이 높은 지역으로, 상대적으로 고용 안정성이 높다고 해석할 수 있습니다."];
    ln ["                </p>"];
    ln ["            </section>"];
    ln [EmptyString];
    ln ["            <footer style="; "margin-top: 4rem; border-top: 1px solid #eee; padding-top: 1rem; color: #888; text-align: center;"; ">"];
    ln ["                &copy; 2024 Analysis Report. Generated automatically."];
    ln ["            </footer>"];
    ln ["        </div>"];
    ln ["    </main>"];
    ln [EmptyString];
    ln ["</body>"];
    ln ["</html>"]
  ].

(** [html_template]: the f-string of lines 68 to 307 with its three holes. *)
Definition html_template (div_age div_region div_compare : string) : string :=
  html_before_age +:+ div_age +:+ html_age_to_region +:+ div_region
  +:+ html_region_to_compare +:+ div_compare +:+ html_after_compare.

(** *** Looking for markup in the report *)

(** [strip_prefix p s] is what follows [p] when [s] starts with [p]. *)
Fixpoint strip_prefix (p s : string) : option string :=
  match p with
  | EmptyString => Some s
  | String a p' =>
      match s with
      | EmptyString => None
      | String b s' => if Ascii.eqb a b then strip_prefix p' s' else None
      end
  end.

(** Every place where [p] occurs in [s], from left to right, each given by
    the text that follows the occurrence. *)
Fixpoint occurrences (p s : string) : list string :=
  match s with
  | EmptyString => []
  | String _ s' =>
      match strip_prefix p s with
      | Some rest => rest :: occurrences p s'
      | None => occurrences p s'
      end
  end.

Definition count_occurrences (p s : string) : nat := length (occurrences p s).

(** The text up to the next double quote. *)
Fixpoint until_quote (s : string) : string :=
  match s with
  | EmptyString => EmptyString
  | String c s' =>
      if Ascii.eqb c (ascii_of_nat 34) then EmptyString
      else String c (until_quote s')
  end.

(** The values of the attribute that the opening text [p] ends with, one
    for each occurrence of [p]. *)
Definition attr_values (p s : string) : list string :=
  map until_quote (occurrences p s).

(** The markup of the template that the report's structure hangs on. *)
Definition chart_container : string :=
  "<div class=" +:+ dq +:+ "chart-container" +:+ dq +:+ ">".
Definition nav_link : string := "<a href=" +:+ dq +:+ "#".
Definition section_open : string := "<section id=" +:+ dq.

(** A container as the template opens it in front of a fragment: the tag,
    the line feed and the indentation of the hole. *)
Definition chart_slot : string :=
  chart_container +:+ nl +:+ "                    ".

Definition chart_containers (doc : string) : nat :=
  count_occurrences chart_container doc.
Definition nav_anchors (doc : string) : list string := attr_values nav_link doc.
Definition section_ids (doc : string) : list string := attr_values section_open doc.

Definition contains (p s : string) : Prop := occurrences p s <> [].

(** Checks on a piece of text [a] that let one count occurrences of [p] in
    [a] apart from what is put after it: no end of [a] is a beginning of
    [p] that still lacks something, and whatever follows an occurrence of
    [p] in [a] reaches a double quote before [a] ends. *)
Fixpoint no_straddle (p a : string) : bool :=
  match a with
  | EmptyString => true
  | String _ a' =>
      match strip_prefix a p with
      | Some (String _ _) => false
      | _ => no_straddle p a'
      end
  end.

Fixpoint has_quote (s : string) : bool :=
  match s with
  | EmptyString => false
  | String c s' => Ascii.eqb c (ascii_of_nat 34) || has_quote s'
  end.

Fixpoint char_in (c : ascii) (p : string) : bool :=
  match p with
  | EmptyString => false
  | String b p' => Ascii.eqb c b || char_in c p'
  end.

(** ** The process *)

(** What the process does to the outside, oldest first. *)
Inductive event :=
| ev_exists (path : string) (found : bool)
| ev_read (path : string)
| ev_print (line : string)
| ev_write (path : string).

(** The outside: the files by path, the record of what the process did,
    and the random identifiers Plotly will draw with how many were drawn. *)
Record world := {
  files : gmap string string;
  events : list event;
  uuids : nat -> N;
  drawn : nat
}.

Definition record (e : event) (w : world) : world :=
  {| files := files w; events := events w ++ [e];
     uuids := uuids w; drawn := drawn w |}.

(** How a step ends: with a value, by [exit(status)], or by an exception
    nobody catches. *)
Inductive outcome (A : Type) :=
| finished (a : A)
| exited (status : Z)
| died (e : exception).
Arguments finished {A} a.
Arguments exited {A} status.
Arguments died {A} e.

Definition py (A : Type) : Type := world -> outcome A * world.

#[global] Instance py_ret : MRet py := fun A a w => (finished a, w).
#[global] Instance py_bind : MBind py := fun A B k m w =>
  match m w with
  | (finished a, w') => k a w'
  | (exited n, w') => (exited n, w')
  | (died e, w') => (died e, w')
  end.

(** The exit status of the process: [exit(n)] gives [n], an uncaught
    exception gives 1 after the traceback. *)
Definition exit_status {A} (o : outcome A) : Z :=
  match o with
  | finished _ => 0
  | exited n => n
  | died _ => 1
  end.

Definition os_path_exists (path : string) : py bool := fun w =>
  let found := bool_decide (is_Some (files w !! path)) in
  (finished found, record (ev_exists path found) w).

Definition py_print (line : string) : py unit := fun w =>
  (finished tt, record (ev_print line) w).

Definition py_exit {A} (status : Z) : py A := fun w => (exited status, w).

Definition raise_or_return {A} (r : result A) : py A := fun w =>
  match r with
  | Ok a => (finished a, w)
  | Raise e => (died e, w)
  end.

(** [with open(path, 'w', encoding='utf-8') as f: f.write(text)]. The
    text is kept as its UTF-8 bytes; the disk is taken to accept it. *)
Definition write_file (path text : string) : py unit := fun w =>
  (finished tt,
   {| files := <[path := text]> (files w); events := events w ++ [ev_write path];
      uuids := uuids w; drawn := drawn w |}).

Section Script.
Context `{Library}.

(** [pd.read_csv(path, encoding='cp949')] *)
Definition pd_read_csv (path : string) : py (list csv_row) := fun w =>
  match files w !! path with
  | None => (died (LoadError "FileNotFoundError"), record (ev_read path) w)
  | Some text =>
      match read_csv text with
      | Ok table => (finished table, record (ev_read path) w)
      | Raise e => (died e, record (ev_read path) w)
      end
  end.

(** [fig.to_html(full_html=False, include_plotlyjs=...)] *)
Definition fig_to_html (fig : figure) (js : include_plotlyjs) : py string :=
  fun w =>
    (finished (to_html fig js (uuids w (drawn w))),
     {| files := files w; events := events w; uuids := uuids w;
        drawn := S (drawn w) |}).
End Script.

Definition FILE_PATH : string :=
  "국민연금공단_시군구별 청년계층 가입자 현황_20241231.csv".
Definition OUTPUT_FILE : string := "national_pension_analysis_report.html".

(** The names the module has bound when the script reaches its end. *)
Record namespace := {
  df : list row;
  df_melted : list melted_row;
  city_sum : list city_row;
  div_age : string;
  div_region : string;
  div_compare : string;
  html : string
}.

(** The script, top to bottom, for a table whose count columns are
    [int64]; building and rendering the figures and writing the report are
    taken to succeed. *)
Definition script `{Library} : py namespace :=
  found ← os_path_exists FILE_PATH;
  (if negb found
   then py_print ("Error: File not found at " +:+ FILE_PATH);; py_exit 1
   else mret tt);;
  table ← pd_read_csv FILE_PATH;
  df ← raise_or_return (assign_시도 table);
  let df_melted := melt df in
  let fig_age := sunburst df_melted in
  let fig_region := treemap df in
  let city_sum := groupby_sum df in
  let fig_compare := scatter city_sum in
  div_age ← fig_to_html fig_age cdn;
  div_region ← fig_to_html fig_region no_plotlyjs;
  div_compare ← fig_to_html fig_compare no_plotlyjs;
  let html := html_template div_age div_region div_compare in
  write_file OUTPUT_FILE html;;
  py_print ("Successfully generated report: " +:+ OUTPUT_FILE);;
  mret {| df := df; df_melted := df_melted; city_sum := city_sum;
          div_age := div_age; div_region := div_region;
          div_compare := div_compare; html := html |}.

Definition run `{Library} (w : world) : outcome namespace * world := script w.

(** *** The script in one step *)

Definition missing_message : string := "Error: File not found at " +:+ FILE_PATH.
Definition success_message : string :=
  "Successfully generated report: " +:+ OUTPUT_FILE.

(** The names bound by a run that loads the rows [rows] and in which Plotly
    draws the identifiers [id1], [id2], [id3]. *)
Definition bindings `{Library} (rows : list row) (id1 id2 id3 : N) : namespace :=
  let a := to_html (sunburst (melt rows)) cdn id1 in
  let r := to_html (treemap rows) no_plotlyjs id2 in
  let c := to_html (scatter (groupby_sum rows)) no_plotlyjs id3 in
  {| df := rows; df_melted := melt rows; city_sum := groupby_sum rows;
     div_age := a; div_region := r; div_compare := c;
     html := html_template a r c |}.

(** The world after the existence check and the read. *)
Definition loaded (w : world) : world :=
  record (ev_read FILE_PATH) (record (ev_exists FILE_PATH true) w).

(** The world after a run that wrote [text]. *)
Definition reported (w : world) (text : string) : world :=
  {| files := <[OUTPUT_FILE := text]> (files w);
     events := events w ++ [ev_exists FILE_PATH true; ev_read FILE_PATH;
                            ev_write OUTPUT_FILE; ev_print success_message];
     uuids := uuids w;
     drawn := S (S (S (drawn w))) |}.

(** The world after a run that found no input file. *)
Definition refused (w : world) : world :=
  record (ev_print missing_message) (record (ev_exists FILE_PATH false) w).

(** ** What the specification talks about *)

(** A fragment that brings no chart container, navigation link or section
    of its own. *)
Definition plain (frag : string) : Prop :=
  occurrences chart_container frag = [] /\
  occurrences nav_link frag = [] /\
  occurrences section_open frag = [].


(** [t] is the first whitespace-separated token of [s]: [s] is some
    whitespace, then [t], which is not empty and has no whitespace in it,
    then either nothing or a whitespace character and whatever follows. *)
Definition first_token (s t : pystr) : Prop :=
  exists ws rest,
    s = ws ++ t ++ rest /\
    Forall (fun c => isspace c = true) ws /\
    t <> [] /\
    Forall (fun c => isspace c = false) t /\
    match rest with [] => True | c :: _ => isspace c = true end.

(** A text with at least one character that is not whitespace, and a text
    with none (the empty text among them). *)
Definition has_nonspace (s : pystr) : Prop := Exists (fun c => isspace c = false) s.
Definition blank (s : pystr) : Prop := Forall (fun c => isspace c = true) s.

(** A region name from which no province can be taken. *)
Definition no_province (x : cell) : Prop :=
  x = NaN \/ exists s, x = Str s /\ blank s.

(** The melted rows in the order the specification describes: the rows of
    the frame one after the other, each giving its four value columns in
    the listed order. *)
Definition melt_by_row (df : list row) : list melted_row :=
  flat_map (fun r => map (fun v => melted_cell v r) value_vars) df.

(** The melted rows that came from row [i] of the frame. [melt] numbers
    its output afresh ([ignore_index=True]), so they are known by their
    place: one in each of the four blocks, at offset [i]. *)
Definition melted_rows_of (df : list row) (i : nat) : list melted_row :=
  omap (fun k => melt df !! (k * length df + i)%nat) (seq 0 (length value_vars)).

(** The sum of a column as a number, without the wrap-around of [int64]. *)
Definition exact_sum (l : list Z) : Z := foldr Z.add 0 l.

(** ** A small input *)

(** "서울특별시 강남구", "부산광역시 해운대구", "서울특별시 종로구" and the
    provinces "서울특별시", "부산광역시"; the age bracket "20대". *)
Definition 서울_강남구 : pystr :=
  [0xC11C; 0xC6B8; 0xD2B9; 0xBCC4; 0xC2DC; 0x20; 0xAC15; 0xB0A8; 0xAD6C]%N.
Definition 부산_해운대구 : pystr :=
  [0xBD80; 0xC0B0; 0xAD11; 0xC5ED; 0xC2DC; 0x20; 0xD574; 0xC6B4; 0xB300; 0xAD6C]%N.
Definition 서울_종로구 : pystr :=
  [0xC11C; 0xC6B8; 0xD2B9; 0xBCC4; 0xC2DC; 0x20; 0xC885; 0xB85C; 0xAD6C]%N.
Definition 서울 : pystr := [0xC11C; 0xC6B8; 0xD2B9; 0xBCC4; 0xC2DC]%N.
Definition 부산 : pystr := [0xBD80; 0xC0B0; 0xAD11; 0xC5ED; 0xC2DC]%N.
Definition 이십대 : pystr := [0x32; 0x30; 0xB300]%N.

Definition sample_table : list csv_row :=
  [ {| 시군구명 := Str 서울_강남구; 연령_구분 := Str 이십대;
       사업장가입자 := 120; 지역가입자 := 30; 임의가입자 := 5; 임의계속가입자 := 1 |};
    {| 시군구명 := Str 부산_해운대구; 연령_구분 := Str 이십대;
       사업장가입자 := 70; 지역가입자 := 20; 임의가입자 := 3; 임의계속가입자 := 0 |};
    {| 시군구명 := Str 서울_종로구; 연령_구분 := Str 이십대;
       사업장가입자 := 40; 지역가입자 := 10; 임의가입자 := 2; 임의계속가입자 := 4 |} ].

Definition sample_df : list row :=
  [ {| csv := {| 시군구명 := Str 서울_강남구; 연령_구분 := Str 이십대;
                 사업장가입자 := 120; 지역가입자 := 30; 임의가입자 := 5;
                 임의계속가입자 := 1 |}; 시도 := 서울 |};
    {| csv := {| 시군구명 := Str 부산_해운대구; 연령_구분 := Str 이십대;
                 사업장가입자 := 70; 지역가입자 := 20; 임의가입자 := 3;
                 임의계속가입자 := 0 |}; 시도 := 부산 |};
    {| csv := {| 시군구명 := Str 서울_종로구; 연령_구분 := Str 이십대;
                 사업장가입자 := 40; 지역가입자 := 10; 임의가입자 := 2;
                 임의계속가입자 := 4 |}; 시도 := 서울 |} ].

(** The same table with a second row whose region name is three spaces. *)
Definition blank_row : csv_row :=
  {| 시군구명 := Str [0x20; 0x20; 0x20]%N; 연령_구분 := Str 이십대;
     사업장가입자 := 7; 지역가입자 := 2; 임의가입자 := 0; 임의계속가입자 := 0 |}.
Definition blank_table : list csv_row :=
  match sample_table with
  | r :: rest => r :: blank_row :: rest
  | [] => [blank_row]
  end.

(** A stand-in for pandas and Plotly: every file parses to [table], and a
    figure is written as a [div] with, when asked for, the reference to
    plotly.js in front. *)
Definition sample_ref : string :=
  "<script src=https://cdn.plot.ly/plotly.min.js></script>".
Definition sample_library (table : list csv_row) : Library :=
  {| read_csv := fun _ => Ok table;
     to_html := fun _ js _ =>
       "<div>" +:+ match js with cdn => sample_ref | no_plotlyjs => EmptyString end
       +:+ "<div class=plotly-graph-div></div></div>";
     plotlyjs_ref := sample_ref |}.

(** A world with the input file in place and no report yet, and one with
    an old report and no input file. *)
Definition sample_world : world :=
  {| files := {[ FILE_PATH := "csv"%string ]}; events := [];
     uuids := N.of_nat; drawn := 0 |}.
Definition empty_handed_world : world :=
  {| files := {[ OUTPUT_FILE := "old report"%string ]}; events := [];
     uuids := N.of_nat; drawn := 0 |}.

(** What a run on [sample_world] binds and leaves behind, with the sample
    table behind the parser. *)
Definition sample_ns : namespace :=
  @bindings (sample_library sample_table) sample_df 0%N 1%N 2%N.
Definition sample_report : world := reported sample_world (html sample_ns).

(** ** Further notions *)

(** A token: not empty, and no whitespace in it. *)
Definition token (t : pystr) : Prop :=
  t <> [] /\ Forall (fun c => isspace c = false) t.

(** A region name from which a province can be taken. *)
Definition has_province (x : cell) : Prop :=
  exists s, x = Str s /\ has_nonspace s.

(** The exception a region name without a province makes the lambda
    raise. *)
Definition province_error (x : cell) : exception :=
  match x with
  | NaN => AttributeError
  | Str _ => IndexError
  end.

(** What [melt] reads of a row: the two identifier columns and the four
    value columns. *)
Definition melt_columns (r : row) : cell * pystr * Z * Z * Z * Z :=
  (연령_구분 (csv r), 시도 r, 사업장가입자 (csv r), 지역가입자 (csv r),
   임의가입자 (csv r), 임의계속가입자 (csv r)).

(** The sample frame with its first two rows exchanged. *)
Definition sample_df_swapped : list row :=
  match sample_df with
  | r0 :: r1 :: rest => r1 :: r0 :: rest
  | _ => sample_df
  end.

(** A stand-in for a parser that gives up on every file. *)
Definition failing_library : Library :=
  {| read_csv := fun _ => Raise (LoadError "UnicodeDecodeError");
     to_html := fun _ _ _ => "<div></div>"%string;
     plotlyjs_ref := sample_ref |}.

(** The closing tag of a section, and a fragment that neither opens nor
    closes one. *)
Definition section_close : string := "</section>".
Definition sectionless (frag : string) : Prop :=
  occurrences section_open frag = [] /\ occurrences section_close frag = [].

(** The section a place of the report lies in, read off the text before
    that place: the section opened last, unless as many sections were
    closed as were opened. *)
Definition enclosing_of (closed : nat) (ids : list string) : option string :=
  if (closed <? length ids)%nat then last ids else None.
Definition enclosing_section (before : string) : option string :=
  enclosing_of (count_occurrences section_close before) (section_ids before).

(** ** Column types *)

(** The dtypes of the count columns: a column of integers comes out of
    [pd.read_csv] as [int64] when every value fits, and as [uint64] when
    some value does not but none is negative and all are below 2^64; a
    column where neither holds stays text and is not an integer column.
    [float64] is what a stack of an [int64] and a [uint64] column gets. *)
Inductive dtype := dt_int64 | dt_uint64 | dt_float64.

Definition in_int64b (z : Z) : bool := (- 2^63 <=? z) && (z <? 2^63).
Definition in_uint64b (z : Z) : bool := (0 <=? z) && (z <? 2^64).

Definition column_dtype (col : list Z) : option dtype :=
  if forallb in_int64b col then Some dt_int64
  else if forallb in_uint64b col then Some dt_uint64
  else None.

(** NumPy's common dtype of two columns. *)
Definition common_dtype (a b : dtype) : dtype :=
  match a, b with
  | dt_int64, dt_int64 => dt_int64
  | dt_uint64, dt_uint64 => dt_uint64
  | _, _ => dt_float64
  end.

(** The [float64] nearest to an integer (ties to the even mantissa), as the
    integer it stands for: 53 bits of the value are kept. *)
Definition to_float64 (z : Z) : Z :=
  let a := Z.abs z in
  if a <? 2^53 then z
  else
    let e := Z.log2 a - 52 in
    let q := a / 2^e in
    let r := a mod 2^e in
    let half := 2^(e - 1) in
    let q' := if (half <? r) || ((r =? half) && Z.odd q) then q + 1 else q in
    Z.sgn z * (q' * 2^e).

Definition cast (dt : dtype) (z : Z) : Z :=
  match dt with
  | dt_float64 => to_float64 z
  | _ => z
  end.

(** The dtype of the stacked value column of [melt]: the common dtype of
    the four value columns, when all four are integer columns. *)
Definition stack_dtype (df : list row) : option dtype :=
  match column_dtype (map (value_of V사업장가입자) df),
        column_dtype (map (value_of V지역가입자) df),
        column_dtype (map (value_of V임의가입자) df),
        column_dtype (map (value_of V임의계속가입자) df) with
  | Some a, Some b, Some c, Some d =>
      Some (common_dtype (common_dtype (common_dtype a b) c) d)
  | _, _, _, _ => None
  end.

(** [df.melt(...)] with the dtypes: the rows are those of [melt], in its
    order, and each count is cast to the dtype of the stack. A count that
    became a [float64] is given as the integer the float stands for. *)
Definition pandas_melt (df : list row) : option (list melted_row) :=
  match stack_dtype df with
  | None => None
  | Some dt =>
      Some (map (fun m => {| m연령_구분 := m연령_구분 m; m시도 := m시도 m;
                             가입유형 := 가입유형 m;
                             가입자수 := cast dt (가입자수 m) |})
              (melt df))
  end.

(** A row whose four counts fit [int64]. *)
Definition int64_counts (r : row) : Prop :=
  in_int64 (사업장가입자 (csv r)) /\ in_int64 (지역가입자 (csv r)) /\
  in_int64 (임의가입자 (csv r)) /\ in_int64 (임의계속가입자 (csv r)).

(** A frame of one row whose workplace count is 2^63 + 1, one more than
    [int64] holds, and the same frame with 2^63 in its place. *)
Definition wide_count_df : list row :=
  [ {| csv := {| 시군구명 := Str 서울_강남구; 연령_구분 := Str 이십대;
                 사업장가입자 := 9223372036854775809; 지역가입자 := 1;
                 임의가입자 := 1; 임의계속가입자 := 1 |};
       시도 := 서울 |} ].
Definition wide_count_df' : list row :=
  [ {| csv := {| 시군구명 := Str 서울_강남구; 연령_구분 := Str 이십대;
                 사업장가입자 := 9223372036854775808; 지역가입자 := 1;
                 임의가입자 := 1; 임의계속가입자 := 1 |};
       시도 := 서울 |} ].

(** The sample frame with other region names. *)
Definition sample_df_renamed : list row :=
  map (fun r => {| csv := {| 시군구명 := NaN; 연령_구분 := 연령_구분 (csv r);
                             사업장가입자 := 사업장가입자 (csv r);
                             지역가입자 := 지역가입자 (csv r);
                             임의가입자 := 임의가입자 (csv r);
                             임의계속가입자 := 임의계속가입자 (csv r) |};
                   시도 := 시도 r |}) sample_df.

(** * Properties *)

(** ** [str.split()] *)

Lemma skip_space_spec (s : pystr) :
  exists ws, s = ws ++ skip_space s /\ Forall (fun c => isspace c = true) ws /\
    match skip_space s with [] => True | c :: _ => isspace c = false end.
Proof.
  induction s as [|c s IH]; simpl.
  - exists []. auto.
  - destruct (isspace c) eqn:Hc.
    + destruct IH as (ws & Heq & Hws & Hhd).
      exists (c :: ws). split; [simpl; congruence|]. split; [constructor|]; auto.
    + exists []. auto.
Qed.

Lemma scan_token_spec (s : pystr) :
  s = (scan_token s).1 ++ (scan_token s).2 /\
  Forall (fun c => isspace c = false) (scan_token s).1 /\
  match (scan_token s).2 with [] => True | c :: _ => isspace c = true end.
Proof.
  induction s as [|c s IH]; simpl; [auto|].
  destruct (isspace c) eqn:Hc; simpl.
  - rewrite Hc. auto.
  - destruct (scan_token s) as [t rest]; simpl in *.
    destruct IH as (Heq & Ht & Hrest).
    split; [congruence|]. split; [constructor|]; auto.
Qed.

Lemma skip_space_blank (s : pystr) : blank s -> skip_space s = [].
Proof.
  induction 1 as [|c s Hc _ IH]; simpl; [done|]. by rewrite Hc.
Qed.

Lemma skip_space_nonspace (s : pystr) : has_nonspace s -> skip_space s <> [].
Proof.
  induction 1 as [c s Hc|c s _ IH]; simpl.
  - by rewrite Hc.
  - by destruct (isspace c).
Qed.

Lemma split_blank (s : pystr) : blank s -> split s = [].
Proof. intros Hs. unfold split. simpl. by rewrite skip_space_blank. Qed.

(** The first element of [split s], when [s] is not blank. *)
Lemma split_head (s : pystr) :
  has_nonspace s -> exists t l, split s = t :: l /\ first_token s t.
Proof.
  intros Hs. unfold split. simpl.
  destruct (skip_space_spec s) as (ws & Heq & Hws & Hhd).
  destruct (skip_space s) as [|c r] eqn:Hskip.
  { by apply skip_space_nonspace in Hs. }
  destruct (scan_token_spec r) as (Hr & Ht & Hrest).
  destruct (scan_token r) as [t rest]; simpl in *.
  exists (c :: t), (split_loop (length s) rest). split; [done|].
  exists ws, rest. repeat split; auto.
  - rewrite Heq. simpl. by rewrite <- Hr.
Qed.

Lemma skip_space_app (ws x : pystr) :
  Forall (fun c => isspace c = true) ws -> skip_space (ws ++ x) = skip_space x.
Proof. induction 1 as [|c ws Hc _ IH]; simpl; [done|]. by rewrite Hc. Qed.

Lemma scan_token_app (t rest : pystr) :
  Forall (fun c => isspace c = false) t ->
  match rest with [] => True | c :: _ => isspace c = true end ->
  scan_token (t ++ rest) = (t, rest).
Proof.
  intros Ht Hrest. induction Ht as [|c t Hc _ IH]; simpl.
  - destruct rest as [|c r]; [done|]. simpl. by rewrite Hrest.
  - by rewrite Hc, IH.
Qed.

(** [split] finds the first token wherever there is one. *)
Lemma first_token_split (s t : pystr) :
  first_token s t -> exists l, split s = t :: l.
Proof.
  intros (ws & rest & -> & Hws & Hne & Ht & Hrest).
  unfold split. simpl. rewrite skip_space_app by done.
  destruct t as [|c t]; [done|]. inversion Ht as [|? ? Hc Ht']; subst.
  simpl. rewrite Hc, scan_token_app by done. eauto.
Qed.

Lemma first_token_unique (s t t' : pystr) :
  first_token s t -> first_token s t' -> t' = t.
Proof.
  intros [l Hl]%first_token_split [l' Hl']%first_token_split. congruence.
Qed.

Lemma skip_space_length (s : pystr) : (length (skip_space s) <= length s)%nat.
Proof.
  induction s as [|c s IH]; simpl; [lia|]. destruct (isspace c); simpl; lia.
Qed.

Lemma scan_token_length (s : pystr) : (length (scan_token s).2 <= length s)%nat.
Proof.
  induction s as [|c s IH]; simpl; [lia|].
  destruct (isspace c); simpl; [lia|].
  destruct (scan_token s); simpl in *; lia.
Qed.

(** The outer loop never needs more turns than [split] gives it. *)
Lemma split_loop_enough (n m : nat) (s : pystr) :
  (length s < n)%nat -> (length s < m)%nat -> split_loop n s = split_loop m s.
Proof.
  revert m s. induction n as [|n IH]; intros m s Hn Hm; [lia|].
  destruct m as [|m]; [lia|]. simpl.
  pose proof (skip_space_length s) as Hskip.
  destruct (skip_space s) as [|c r]; [done|].
  pose proof (scan_token_length r) as Hscan.
  destruct (scan_token r) as [t rest]. simpl in *.
  f_equal. apply IH; lia.
Qed.

Lemma split_unfold (s : pystr) :
  split s = match skip_space s with
            | [] => []
            | c :: r => let (t, rest) := scan_token r in (c :: t) :: split rest
            end.
Proof.
  unfold split at 1. simpl.
  pose proof (skip_space_length s) as Hskip.
  destruct (skip_space s) as [|c r]; [done|].
  pose proof (scan_token_length r) as Hscan.
  destruct (scan_token r) as [t rest]. simpl in *.
  f_equal. unfold split. apply split_loop_enough; lia.
Qed.

Example split_서울_강남구 :
  split 서울_강남구 = [서울; [0xAC15; 0xB0A8; 0xAD6C]%N].
Proof. reflexivity. Qed.

(** Leading whitespace is skipped, and the ideographic space U+3000
    separates like any other. *)
Example split_wide_space :
  split ([0x20; 0x09] ++ 부산 ++ [0x3000] ++ 서울 ++ [0x0A])%N = [부산; 서울].
Proof. reflexivity. Qed.

Example first_of_split_spaces :
  first_of_split (Str [0x20; 0x20; 0x20]%N) = Raise IndexError.
Proof. reflexivity. Qed.

Example first_of_split_empty : first_of_split (Str []) = Raise IndexError.
Proof. reflexivity. Qed.

Example first_of_split_missing : first_of_split NaN = Raise AttributeError.
Proof. reflexivity. Qed.

Lemma first_of_split_raises (x : cell) (e : exception) :
  first_of_split x = Raise e -> e = AttributeError \/ e = IndexError.
Proof.
  destruct x as [s|]; simpl; [|intros [= <-]; auto].
  destruct (split s); intros [= <-]; auto.
Qed.

Lemma first_of_split_no_province (x : cell) :
  no_province x -> exists e, first_of_split x = Raise e.
Proof.
  intros [->|(s & -> & Hs)]; simpl; [eauto|].
  rewrite split_blank by done. eauto.
Qed.

(** ** The derived column *)

Lemma assign_시도_lookup (table : list csv_row) (rows : list row) :
  assign_시도 table = Ok rows ->
  forall i r, rows !! i = Some r ->
    table !! i = Some (csv r) /\ first_of_split (시군구명 (csv r)) = Ok (시도 r).
Proof.
  revert rows. induction table as [|x table IH]; simpl; intros rows.
  - intros [= <-] i r Hi. by rewrite lookup_nil in Hi.
  - destruct (first_of_split (시군구명 x)) as [t|] eqn:Hx; [|done].
    destruct (assign_시도 table) as [rows'|]; [|done].
    intros [= <-] [|i] r; simpl.
    + intros [= <-]. auto.
    + by apply IH.
Qed.

Lemma assign_시도_length (table : list csv_row) (rows : list row) :
  assign_시도 table = Ok rows -> length rows = length table.
Proof.
  revert rows. induction table as [|x table IH]; simpl; intros rows.
  - by intros [= <-].
  - destruct (first_of_split (시군구명 x)); [|done].
    destruct (assign_시도 table) as [rows'|]; [|done].
    intros [= <-]. simpl. f_equal. by apply IH.
Qed.

Lemma assign_시도_raises (table : list csv_row) :
  (exists r, r ∈ table /\ no_province (시군구명 r)) ->
  exists e, assign_시도 table = Raise e /\ (e = AttributeError \/ e = IndexError).
Proof.
  intros (r & Hr & Hbad). induction table as [|x table IH]; simpl.
  - by apply elem_of_nil in Hr.
  - destruct (first_of_split (시군구명 x)) as [t|e] eqn:Hx.
    + apply elem_of_cons in Hr as [->|Hr].
      * apply first_of_split_no_province in Hbad as [e He]. congruence.
      * destruct (IH Hr) as (e & -> & He). eauto.
    + apply first_of_split_raises in Hx. eauto.
Qed.

Lemma assign_시도_total (table : list csv_row) :
  Forall (fun r => exists s, 시군구명 r = Str s /\ has_nonspace s) table ->
  exists rows, assign_시도 table = Ok rows.
Proof.
  induction 1 as [|x table (s & Hx & Hs) _ [rows IH]]; simpl; [eauto|].
  rewrite Hx. simpl. destruct (split_head s Hs) as (t & l & -> & _).
  rewrite IH. eauto.
Qed.

(** ** melt *)

Lemma melt_unfold (df : list row) :
  melt df = map (melted_cell V사업장가입자) df ++ map (melted_cell V지역가입자) df
            ++ map (melted_cell V임의가입자) df ++ map (melted_cell V임의계속가입자) df.
Proof. unfold melt. simpl. by rewrite app_nil_r. Qed.

Lemma melt_length (df : list row) : length (melt df) = (length df * 4)%nat.
Proof. rewrite melt_unfold, !length_app, !length_map. lia. Qed.

(** Block [k] of the melted table is value column [k]; inside a block the
    rows keep the order of the frame. *)
Lemma melt_lookup (df : list row) (k i : nat) (v : value_var) (r : row) :
  value_vars !! k = Some v -> df !! i = Some r ->
  melt df !! (k * length df + i)%nat = Some (melted_cell v r).
Proof.
  intros Hk Hi. assert (i < length df)%nat by by eapply lookup_lt_Some.
  assert (Hm : forall u, map (melted_cell u) df !! i = Some (melted_cell u r))
    by (intros u; by rewrite list_lookup_fmap, Hi).
  rewrite melt_unfold.
  destruct k as [|[|[|[|k]]]]; simpl in Hk; try done; injection Hk as <-.
  - rewrite lookup_app_l by (rewrite length_map; lia). apply Hm.
  - rewrite lookup_app_r by (rewrite length_map; lia).
    rewrite lookup_app_l by (rewrite !length_map; lia).
    rewrite length_map. replace (1 * length df + i - length df)%nat with i by lia.
    apply Hm.
  - do 2 rewrite lookup_app_r by (rewrite ?length_map; lia).
    rewrite lookup_app_l by (rewrite !length_map; lia).
    rewrite !length_map.
    replace (2 * length df + i - length df - length df)%nat with i by lia.
    apply Hm.
  - do 3 rewrite lookup_app_r by (rewrite ?length_map; lia).
    rewrite !length_map.
    replace (3 * length df + i - length df - length df - length df)%nat
      with i by lia.
    apply Hm.
Qed.

Lemma melted_rows_of_lookup (df : list row) (i : nat) (r : row) :
  df !! i = Some r ->
  melted_rows_of df i = map (fun v => melted_cell v r) value_vars.
Proof.
  intros Hi.
  pose proof (melt_lookup df 0 i _ r eq_refl Hi) as H0.
  pose proof (melt_lookup df 1 i _ r eq_refl Hi) as H1.
  pose proof (melt_lookup df 2 i _ r eq_refl Hi) as H2.
  pose proof (melt_lookup df 3 i _ r eq_refl Hi) as H3.
  unfold melted_rows_of. simpl in *. by rewrite H0, H1, H2, H3.
Qed.

(** Row-major and column-major order part ways at the second row. *)
Lemma melt_by_row_second (r0 r1 : row) (df : list row) :
  melt_by_row (r0 :: r1 :: df) !! 1%nat = Some (melted_cell V지역가입자 r0).
Proof. reflexivity. Qed.

Lemma melt_second (r0 r1 : row) (df : list row) :
  melt (r0 :: r1 :: df) !! 1%nat = Some (melted_cell V사업장가입자 r1).
Proof. reflexivity. Qed.

Lemma melt_by_row_short (df : list row) :
  (length df <= 1)%nat -> melt df = melt_by_row df.
Proof. destruct df as [|r [|r' df]]; simpl; [done|done|lia]. Qed.

Lemma melt_by_row_long (df : list row) :
  (2 <= length df)%nat -> melt df <> melt_by_row df.
Proof.
  destruct df as [|r0 [|r1 df]]; [simpl; lia | simpl; lia | intros _ Heq].
  apply (f_equal (fun l => 가입유형 <$> l !! 1%nat)) in Heq.
  rewrite melt_second, melt_by_row_second in Heq. done.
Qed.

Example melt_sample_df :
  map (fun m => (가입유형 m, 가입자수 m)) (melt sample_df)
  = [(V사업장가입자, 120); (V사업장가입자, 70); (V사업장가입자, 40);
     (V지역가입자, 30); (V지역가입자, 20); (V지역가입자, 10);
     (V임의가입자, 5); (V임의가입자, 3); (V임의가입자, 2);
     (V임의계속가입자, 1); (V임의계속가입자, 0); (V임의계속가입자, 4)].
Proof. reflexivity. Qed.

(** ** The order on keys *)

Lemma str_compare_eq (a b : pystr) : str_compare a b = Eq <-> a = b.
Proof. apply list_compare_refl, N.compare_eq_iff. Qed.

Lemma str_compare_opp (a b : pystr) :
  str_compare b a = CompOpp (str_compare a b).
Proof.
  apply list_compare_antisym; [apply N.compare_eq_iff|].
  intros x y. apply N.compare_antisym.
Qed.

Lemma str_lt_trans (a b c : pystr) : str_lt a b -> str_lt b c -> str_lt a c.
Proof.
  unfold str_lt, str_compare.
  apply list_compare_trans; [apply N.compare_eq_iff| |].
  - intros x y z [] Hxy Hyz.
    + apply N.compare_eq_iff in Hxy, Hyz. apply N.compare_eq_iff. congruence.
    + rewrite N.compare_lt_iff in *. lia.
    + rewrite N.compare_gt_iff in *. lia.
  - intros x y. apply N.compare_antisym.
Qed.

#[global] Instance str_le_total : Total str_le.
Proof.
  intros a b. unfold str_le. rewrite (str_compare_opp a b).
  destruct (str_compare a b); simpl; [left | left | right]; congruence.
Qed.

#[global] Instance str_le_trans : Transitive str_le.
Proof.
  intros a b c Hab Hbc. unfold str_le in *.
  destruct (str_compare a b) eqn:Eab; [| |done].
  { apply str_compare_eq in Eab as ->. done. }
  destruct (str_compare b c) eqn:Ebc; [| |done].
  { apply str_compare_eq in Ebc as ->. by rewrite Eab. }
  by rewrite (str_lt_trans a b c Eab Ebc).
Qed.

Lemma str_le_lt (a b : pystr) : str_le a b -> a <> b -> str_lt a b.
Proof.
  unfold str_le, str_lt. intros Hle Hne.
  destruct (str_compare a b) eqn:E; [|done|done].
  by apply str_compare_eq in E.
Qed.

Lemma sorted_nodup_strict (l : list pystr) :
  StronglySorted str_le l -> NoDup l -> StronglySorted str_lt l.
Proof.
  induction 1 as [|x l Hl IH Hx]; intros Hnd; [constructor|].
  apply NoDup_cons in Hnd as [Hnotin Hnd]. constructor; [by apply IH|].
  rewrite Forall_forall in Hx |- *. intros y Hy.
  apply str_le_lt; [by apply Hx|]. intros ->. by apply Hnotin.
Qed.

(** ** groupby *)

Lemma group_keys_perm (df : list row) :
  group_keys df ≡ₚ remove_dups (map 시도 df).
Proof. apply merge_sort_Permutation. Qed.

Lemma group_keys_nodup (df : list row) : NoDup (group_keys df).
Proof. rewrite group_keys_perm. apply NoDup_remove_dups. Qed.

Lemma group_keys_elem (df : list row) (k : pystr) :
  k ∈ group_keys df <-> k ∈ map 시도 df.
Proof. rewrite group_keys_perm. apply elem_of_remove_dups. Qed.

Lemma group_keys_sorted (df : list row) : StronglySorted str_lt (group_keys df).
Proof.
  apply sorted_nodup_strict; [|apply group_keys_nodup].
  apply StronglySorted_merge_sort; apply _.
Qed.

Lemma groupby_sum_keys (df : list row) :
  map c시도 (groupby_sum df) = group_keys df.
Proof.
  unfold groupby_sum. rewrite map_map. simpl. apply map_id.
Qed.

(** *** Sums *)

Lemma wrap64_range (z : Z) : in_int64 (wrap64 z).
Proof.
  unfold in_int64, wrap64.
  pose proof (Z.mod_pos_bound (z + 2^63) (2^64) ltac:(lia)). lia.
Qed.

Lemma wrap64_id (z : Z) : in_int64 z -> wrap64 z = z.
Proof.
  unfold in_int64, wrap64. intros Hz.
  rewrite Z.mod_small by lia. lia.
Qed.

Lemma wrap64_add_l (a b : Z) : wrap64 (wrap64 a + b) = wrap64 (a + b).
Proof.
  unfold wrap64. f_equal.
  replace ((a + 2^63) mod 2^64 - 2^63 + b + 2^63)
    with ((a + 2^63) mod 2^64 + b) by lia.
  rewrite Zplus_mod_idemp_l. f_equal. lia.
Qed.

Lemma wrap64_add_r (a b : Z) : wrap64 (a + wrap64 b) = wrap64 (a + b).
Proof. rewrite (Z.add_comm a), wrap64_add_l. f_equal. lia. Qed.

Lemma int64_sum_from (l : list Z) (acc : Z) :
  fold_left int64_add l (wrap64 acc) = wrap64 (acc + exact_sum l).
Proof.
  revert acc. induction l as [|x l IH]; intros acc; simpl.
  - f_equal. lia.
  - change (int64_add (wrap64 acc) x) with (wrap64 (wrap64 acc + x)).
    rewrite wrap64_add_l, IH. f_equal. lia.
Qed.

(** An [int64] sum is the exact sum, wrapped once. *)
Lemma int64_sum_exact (l : list Z) : int64_sum l = wrap64 (exact_sum l).
Proof.
  unfold int64_sum. change 0 with (wrap64 0) at 1. by rewrite int64_sum_from.
Qed.

Lemma wrap64_exact_sum_map (A : Type) (g : A -> Z) (l : list A) :
  wrap64 (exact_sum (map (fun x => wrap64 (g x)) l)) = wrap64 (exact_sum (map g l)).
Proof.
  induction l as [|x l IH]; simpl; [done|].
  by rewrite wrap64_add_l, <- wrap64_add_r, IH, wrap64_add_r.
Qed.

Section Totals.
Variable f : row -> Z.

Lemma exact_sum_pointwise (A : Type) (a b : A -> Z) (l : list A) :
  exact_sum (map (fun k => a k + b k) l)
  = exact_sum (map a l) + exact_sum (map b l).
Proof. induction l as [|k l IH]; simpl; lia. Qed.

(** A key met once in [keys] is counted once. *)
Lemma exact_sum_indicator (x : pystr) (v : Z) (keys : list pystr) :
  NoDup keys -> x ∈ keys ->
  exact_sum (map (fun k => if decide (x = k) then v else 0) keys) = v.
Proof.
  induction 1 as [|k keys Hk Hnd IH]; intros Hx.
  - by apply elem_of_nil in Hx.
  - simpl. destruct (decide (x = k)) as [->|Hne].
    + assert (exact_sum (map (fun k' => if decide (k = k') then v else 0) keys) = 0)
        as ->; [|lia].
      clear IH Hx Hnd. induction keys as [|k' keys IH]; simpl; [done|].
      apply not_elem_of_cons in Hk as [Hne Hk].
      destruct (decide (k = k')); [done|]. by rewrite IH.
    + apply elem_of_cons in Hx as [?|Hx]; [done|]. by rewrite IH.
Qed.

Lemma group_cons (k : pystr) (x : row) (df : list row) :
  group k (x :: df) = if decide (시도 x = k) then x :: group k df else group k df.
Proof. unfold group. by rewrite filter_cons. Qed.

(** Summing group by group is summing the whole column. *)
Lemma exact_sum_groups (keys : list pystr) (df : list row) :
  NoDup keys -> (forall r, r ∈ df -> 시도 r ∈ keys) ->
  exact_sum (map (fun k => exact_sum (map f (group k df))) keys)
  = exact_sum (map f df).
Proof.
  intros Hnd. induction df as [|x df IH]; intros Hin.
  - clear Hnd Hin. induction keys as [|k keys IHk]; simpl in *; [done|].
    by rewrite IHk.
  - simpl. rewrite <- IH by (intros r Hr; apply Hin, elem_of_cons; by right).
    rewrite <- (exact_sum_indicator (시도 x) (f x) keys Hnd)
      by (apply Hin, elem_of_cons; by left).
    rewrite <- exact_sum_pointwise. f_equal. apply map_ext. intros k.
    rewrite group_cons. by destruct (decide (시도 x = k)).
Qed.

Lemma exact_sum_group_bounds (k : pystr) (df : list row) :
  Forall (fun r => 0 <= f r) df ->
  0 <= exact_sum (map f (group k df)) <= exact_sum (map f df).
Proof.
  induction 1 as [|x df Hx _ IH]; [simpl; lia|].
  rewrite group_cons. destruct (decide (시도 x = k)); simpl; lia.
Qed.

(** The [int64] total of the group sums is the [int64] total of the
    column. *)
Lemma int64_sum_groups (df : list row) :
  int64_sum (map (fun k => int64_sum (map f (group k df))) (group_keys df))
  = int64_sum (map f df).
Proof.
  rewrite !int64_sum_exact.
  rewrite (map_ext _ (fun k => wrap64 (exact_sum (map f (group k df)))))
    by (intros k; apply int64_sum_exact).
  rewrite wrap64_exact_sum_map. f_equal.
  apply exact_sum_groups; [apply group_keys_nodup|].
  intros r Hr. apply group_keys_elem. by apply list_elem_of_fmap_2.
Qed.

(** Without overflow the group sums are exact, and so is their total. *)
Lemma exact_sum_groups_int64 (df : list row) :
  Forall (fun r => 0 <= f r) df -> exact_sum (map f df) < 2^63 ->
  exact_sum (map (fun k => int64_sum (map f (group k df))) (group_keys df))
  = exact_sum (map f df).
Proof.
  intros Hpos Hsmall.
  rewrite (map_ext _ (fun k => exact_sum (map f (group k df)))).
  - apply exact_sum_groups; [apply group_keys_nodup|].
    intros r Hr. apply group_keys_elem. by apply list_elem_of_fmap_2.
  - intros k. rewrite int64_sum_exact. apply wrap64_id.
    pose proof (exact_sum_group_bounds k df Hpos). unfold in_int64. lia.
Qed.
End Totals.

Example groupby_sum_sample_df :
  groupby_sum sample_df
  = [ {| c시도 := 부산; c사업장가입자 := 70; c지역가입자 := 20; c임의가입자 := 3 |};
      {| c시도 := 서울; c사업장가입자 := 160; c지역가입자 := 40; c임의가입자 := 7 |} ].
Proof. vm_compute. reflexivity. Qed.

Example int64_sum_wraps : int64_sum [2^62; 2^62] = - 2^63.
Proof. reflexivity. Qed.

(** ** Occurrences in a text put together from pieces *)

Lemma strip_prefix_app (p a r z : string) :
  strip_prefix p (a +:+ r) = Some z ->
  (exists z', strip_prefix p a = Some z' /\ z = z' +:+ r) \/
  (exists y c y', strip_prefix a p = Some y /\ y = String c y' /\
                  strip_prefix y r = Some z).
Proof.
  revert a. induction p as [|c p IH]; intros a; simpl.
  - intros [= <-]. left. eauto.
  - destruct a as [|b a]; simpl.
    + intros Hr. right. exists (String c p), c, p. auto.
    + rewrite (Ascii.eqb_sym b c). destruct (Ascii.eqb c b); [|done].
      intros Hz. apply IH in Hz. done.
Qed.

Lemma strip_prefix_app_some (p a r z : string) :
  strip_prefix p a = Some z -> strip_prefix p (a +:+ r) = Some (z +:+ r).
Proof.
  revert a. induction p as [|c p IH]; intros a; simpl.
  - by intros [= <-].
  - destruct a as [|b a]; simpl; [done|].
    destruct (Ascii.eqb c b); [apply IH|done].
Qed.

Lemma no_straddle_cons (p a : string) (c : ascii) :
  no_straddle p (String c a) = true ->
  no_straddle p a = true /\
  forall b y, strip_prefix (String c a) p <> Some (String b y).
Proof.
  change (no_straddle p (String c a)) with
    (match strip_prefix (String c a) p with
     | Some (String _ _) => false
     | _ => no_straddle p a
     end).
  destruct (strip_prefix (String c a) p) as [[|? ?]|]; done.
Qed.

Lemma occurrences_cons (p s : string) (c : ascii) :
  occurrences p (String c s)
  = match strip_prefix p (String c s) with
    | Some rest => rest :: occurrences p s
    | None => occurrences p s
    end.
Proof. reflexivity. Qed.

Lemma occurrences_app_l (p a r : string) :
  no_straddle p a = true ->
  occurrences p (a +:+ r)
  = map (fun z => z +:+ r) (occurrences p a) ++ occurrences p r.
Proof.
  induction a as [|c a IH]; [done|]. intros Hns.
  assert (Hhead : strip_prefix p (String c a +:+ r)
                  = (fun z => z +:+ r) <$> strip_prefix p (String c a)).
  { destruct (strip_prefix p (String c a)) as [z|] eqn:Ha.
    - by apply strip_prefix_app_some.
    - destruct (strip_prefix p (String c a +:+ r)) as [z|] eqn:Har; [|done].
      apply strip_prefix_app in Har as [(z' & Hz' & _)|(y & b & y' & Hy & -> & _)].
      + congruence.
      + apply no_straddle_cons in Hns as [_ Hns]. by apply Hns in Hy. }
  apply no_straddle_cons in Hns as [Htail _].
  change (String c a +:+ r) with (String c (a +:+ r)) in *.
  rewrite !occurrences_cons, Hhead, (IH Htail).
  by destruct (strip_prefix p (String c a)).
Qed.

Lemma strip_prefix_char_in (a p y' : string) (c : ascii) :
  strip_prefix a p = Some (String c y') -> char_in c p = true.
Proof.
  revert p. induction a as [|b a IH]; intros p; simpl.
  - intros [= ->]. simpl. by rewrite Ascii.eqb_refl.
  - destruct p as [|b' p]; [done|]. destruct (Ascii.eqb b b'); [|done].
    intros Hy. simpl. rewrite (IH _ Hy). apply orb_true_r.
Qed.

Lemma strip_prefix_head (y r z : string) (c b : ascii) (y' : string) :
  y = String c y' -> strip_prefix y (String b r) = Some z -> c = b.
Proof.
  intros ->. simpl. destruct (Ascii.eqb c b) eqn:E; [|done].
  intros _. by apply Ascii.eqb_eq.
Qed.

Lemma occurrences_app_r (p f r : string) (c : ascii) :
  occurrences p f = [] -> char_in c p = false ->
  occurrences p (f +:+ String c r) = occurrences p (String c r).
Proof.
  intros Hf Hc. induction f as [|b f IH]; [done|].
  rewrite occurrences_cons in Hf.
  destruct (strip_prefix p (String b f)) as [z|] eqn:Hb; [done|].
  change (String b f +:+ String c r) with (String b (f +:+ String c r)) in *.
  rewrite occurrences_cons.
  destruct (strip_prefix p (String b (f +:+ String c r))) as [z|] eqn:Hz.
  - change (String b (f +:+ String c r)) with (String b f +:+ String c r) in Hz.
    apply strip_prefix_app in Hz as [(z' & Hz' & _)|(y & c' & y' & Hy & -> & Hr)].
    + congruence.
    + pose proof (strip_prefix_head _ _ _ _ _ _ eq_refl Hr) as ->.
      apply strip_prefix_char_in in Hy. congruence.
  - by apply IH.
Qed.

Lemma until_quote_app (z r : string) :
  has_quote z = true -> until_quote (z +:+ r) = until_quote z.
Proof.
  induction z as [|c z IH]; simpl; [done|].
  destruct (Ascii.eqb c (ascii_of_nat 34)); simpl; [done|].
  intros Hz. by rewrite IH.
Qed.

Lemma attr_values_closed (l : list string) (r : string) :
  forallb has_quote l = true ->
  map until_quote (map (fun z => z +:+ r) l) = map until_quote l.
Proof.
  induction l as [|z l IH]; simpl; [done|].
  intros [Hz Hl]%andb_prop. by rewrite until_quote_app, IH.
Qed.

Lemma contains_app (p a r : string) : contains p r -> contains p (a +:+ r).
Proof.
  unfold contains. intros Hr. induction a as [|c a IH]; [done|].
  change (String c a +:+ r) with (String c (a +:+ r)).
  rewrite occurrences_cons.
  by destruct (strip_prefix p (String c (a +:+ r))).
Qed.

Lemma contains_app_l (p a r : string) : contains p a -> contains p (a +:+ r).
Proof.
  unfold contains. induction a as [|c a IH]; [done|].
  rewrite occurrences_cons.
  change (String c a +:+ r) with (String c (a +:+ r)).
  rewrite occurrences_cons.
  change (String c (a +:+ r)) with (String c a +:+ r).
  destruct (strip_prefix p (String c a)) as [z|] eqn:Hz.
  - by rewrite (strip_prefix_app_some _ _ r _ Hz).
  - intros Ha. destruct (strip_prefix p (String c a +:+ r)); [done|]. auto.
Qed.

(** ** Markup of the report *)

Lemma template_parts_head :
  exists t1 t2 t3,
    html_age_to_region = String (ascii_of_nat 10) t1 /\
    html_region_to_compare = String (ascii_of_nat 10) t2 /\
    html_after_compare = String (ascii_of_nat 10) t3.
Proof.
  exists (match html_age_to_region with String _ t => t | _ => EmptyString end),
    (match html_region_to_compare with String _ t => t | _ => EmptyString end),
    (match html_after_compare with String _ t => t | _ => EmptyString end).
  repeat split; vm_compute; reflexivity.
Qed.

Lemma occurrences_after (p f a r t : string) (c : ascii) :
  a = String c t -> char_in c p = false -> occurrences p f = [] ->
  occurrences p (f +:+ a +:+ r) = occurrences p (a +:+ r).
Proof. intros -> Hc Hf. by apply (occurrences_app_r p f (t +:+ r) c). Qed.

(** The occurrences of [p] in a text made of four pieces and three
    fragments are those of the pieces, when the pieces end and begin so
    that [p] cannot lie across a joint and the fragments have no [p] in
    them. *)
Lemma occurrences_pieces (p a0 a1 a2 a3 f1 f2 f3 t1 t2 t3 : string) (c : ascii) :
  a1 = String c t1 -> a2 = String c t2 -> a3 = String c t3 ->
  no_straddle p a0 = true -> no_straddle p a1 = true -> no_straddle p a2 = true ->
  char_in c p = false ->
  occurrences p f1 = [] -> occurrences p f2 = [] -> occurrences p f3 = [] ->
  occurrences p (a0 +:+ f1 +:+ a1 +:+ f2 +:+ a2 +:+ f3 +:+ a3)
  = map (fun z => z +:+ f1 +:+ a1 +:+ f2 +:+ a2 +:+ f3 +:+ a3) (occurrences p a0)
    ++ map (fun z => z +:+ f2 +:+ a2 +:+ f3 +:+ a3) (occurrences p a1)
    ++ map (fun z => z +:+ f3 +:+ a3) (occurrences p a2)
    ++ occurrences p a3.
Proof.
  intros E1 E2 E3 H0 H1 H2 Hc Hf1 Hf2 Hf3.
  rewrite (occurrences_app_l p a0 _ H0).
  rewrite (occurrences_after p f1 a1 _ t1 _ E1 Hc Hf1).
  rewrite (occurrences_app_l p a1 _ H1).
  rewrite (occurrences_after p f2 a2 _ t2 _ E2 Hc Hf2).
  rewrite (occurrences_app_l p a2 _ H2).
  by rewrite E3, (occurrences_app_r p f3 t3 _ Hf3 Hc).
Qed.

Lemma occurrences_html_template (p f1 f2 f3 : string) :
  no_straddle p html_before_age = true ->
  no_straddle p html_age_to_region = true ->
  no_straddle p html_region_to_compare = true ->
  char_in (ascii_of_nat 10) p = false ->
  occurrences p f1 = [] -> occurrences p f2 = [] -> occurrences p f3 = [] ->
  exists r0 r1 r2,
    occurrences p (html_template f1 f2 f3)
    = map (fun z => z +:+ r0) (occurrences p html_before_age)
      ++ map (fun z => z +:+ r1) (occurrences p html_age_to_region)
      ++ map (fun z => z +:+ r2) (occurrences p html_region_to_compare)
      ++ occurrences p html_after_compare.
Proof.
  intros H0 H1 H2 Hnl Hf1 Hf2 Hf3.
  destruct template_parts_head as (t1 & t2 & t3 & E1 & E2 & E3).
  eexists _, _, _.
  exact (occurrences_pieces p html_before_age html_age_to_region
           html_region_to_compare html_after_compare f1 f2 f3 t1 t2 t3 _
           E1 E2 E3 H0 H1 H2 Hnl Hf1 Hf2 Hf3).
Qed.

Lemma chart_containers_template (f1 f2 f3 : string) :
  plain f1 -> plain f2 -> plain f3 ->
  chart_containers (html_template f1 f2 f3) = 3%nat.
Proof.
  intros (H1 & _) (H2 & _) (H3 & _). unfold chart_containers, count_occurrences.
  destruct (occurrences_html_template chart_container f1 f2 f3
              ltac:(vm_compute; reflexivity) ltac:(vm_compute; reflexivity)
              ltac:(vm_compute; reflexivity) ltac:(vm_compute; reflexivity)
              H1 H2 H3) as (r0 & r1 & r2 & ->).
  rewrite !length_app, !length_map. vm_compute. reflexivity.
Qed.

Lemma nav_anchors_template (f1 f2 f3 : string) :
  plain f1 -> plain f2 -> plain f3 ->
  nav_anchors (html_template f1 f2 f3)
  = ["overview"; "age-analysis"; "region-analysis"; "comparison"]%string.
Proof.
  intros (_ & H1 & _) (_ & H2 & _) (_ & H3 & _). unfold nav_anchors, attr_values.
  destruct (occurrences_html_template nav_link f1 f2 f3
              ltac:(vm_compute; reflexivity) ltac:(vm_compute; reflexivity)
              ltac:(vm_compute; reflexivity) ltac:(vm_compute; reflexivity)
              H1 H2 H3) as (r0 & r1 & r2 & ->).
  rewrite !map_app, !attr_values_closed by (vm_compute; reflexivity).
  vm_compute. reflexivity.
Qed.

Lemma section_ids_template (f1 f2 f3 : string) :
  plain f1 -> plain f2 -> plain f3 ->
  section_ids (html_template f1 f2 f3)
  = ["overview"; "age-analysis"; "region-analysis"; "comparison"]%string.
Proof.
  intros (_ & _ & H1) (_ & _ & H2) (_ & _ & H3). unfold section_ids, attr_values.
  destruct (occurrences_html_template section_open f1 f2 f3
              ltac:(vm_compute; reflexivity) ltac:(vm_compute; reflexivity)
              ltac:(vm_compute; reflexivity) ltac:(vm_compute; reflexivity)
              H1 H2 H3) as (r0 & r1 & r2 & ->).
  rewrite !map_app, !attr_values_closed by (vm_compute; reflexivity).
  vm_compute. reflexivity.
Qed.

(** ** The script in one step *)

Lemma paths_differ : FILE_PATH <> OUTPUT_FILE.
Proof. intros Heq. vm_compute in Heq. discriminate Heq. Qed.

Section Run.
Context `{Library}.

(** Every run is one of four: no input file; a file that does not load;
    a table with a region name that gives no province; a report. *)
Lemma run_cases (w : world) :
  run w =
  match files w !! FILE_PATH with
  | None => (exited 1, refused w)
  | Some text =>
      match read_csv text with
      | Raise e => (died e, loaded w)
      | Ok table =>
          match assign_시도 table with
          | Raise e => (died e, loaded w)
          | Ok rows =>
              let ns := bindings rows (uuids w (drawn w))
                          (uuids w (S (drawn w))) (uuids w (S (S (drawn w)))) in
              (finished ns, reported w (html ns))
          end
      end
  end.
Proof.
  unfold run, script, mbind, py_bind, os_path_exists, pd_read_csv.
  cbn [files events uuids drawn record].
  destruct (files w !! FILE_PATH) as [text|] eqn:Hfile.
  - rewrite bool_decide_eq_true_2 by eauto. cbn [negb mret py_ret].
    cbn [files events uuids drawn record]. rewrite Hfile.
    destruct (read_csv text) as [table|e]; [|done].
    unfold raise_or_return.
    destruct (assign_시도 table) as [rows|e]; [|done].
    unfold fig_to_html, write_file, py_print, record, reported, bindings.
    cbn [files events uuids drawn html]. rewrite <- !app_assoc. reflexivity.
  - rewrite bool_decide_eq_false_2 by (intros [? ?]; done).
    reflexivity.
Qed.
End Run.

Section RunFacts.
Context `{Library}.

(** A run that finishes loaded a table, gave every row a province and
    wrote the report it bound to [html]. *)
Lemma run_finished (w w' : world) (ns : namespace) :
  run w = (finished ns, w') ->
  exists text table rows,
    files w !! FILE_PATH = Some text /\ read_csv text = Ok table /\
    assign_시도 table = Ok rows /\
    ns = bindings rows (uuids w (drawn w)) (uuids w (S (drawn w)))
           (uuids w (S (S (drawn w)))) /\
    w' = reported w (html ns).
Proof.
  rewrite run_cases.
  destruct (files w !! FILE_PATH) as [text|]; [|done].
  destruct (read_csv text) as [table|] eqn:Ht; [|done].
  destruct (assign_시도 table) as [rows|] eqn:Hr; [|done].
  intros [= <- <-]. by exists text, table, rows.
Qed.

(** The two tables are [melt] and [groupby_sum] of the loaded frame. *)
Lemma run_tables (w w' : world) (ns : namespace) :
  run w = (finished ns, w') ->
  df_melted ns = melt (df ns) /\ city_sum ns = groupby_sum (df ns).
Proof. by intros (? & ? & ? & _ & _ & _ & -> & _)%run_finished. Qed.

Lemma run_loads (w : world) (text : string) (table : list csv_row)
    (rows : list row) :
  files w !! FILE_PATH = Some text -> read_csv text = Ok table ->
  assign_시도 table = Ok rows ->
  run w = (finished (bindings rows (uuids w (drawn w)) (uuids w (S (drawn w)))
                       (uuids w (S (S (drawn w))))),
           reported w (html_template
             (to_html (sunburst (melt rows)) cdn (uuids w (drawn w)))
             (to_html (treemap rows) no_plotlyjs (uuids w (S (drawn w))))
             (to_html (scatter (groupby_sum rows)) no_plotlyjs
                (uuids w (S (S (drawn w))))))).
Proof. intros Hf Ht Hr. by rewrite run_cases, Hf, Ht, Hr. Qed.
End RunFacts.

(** * The reshaping steps *)

(** *** melt and the dtypes *)

Lemma in_int64b_true (z : Z) : in_int64b z = true <-> in_int64 z.
Proof. unfold in_int64b, in_int64. rewrite andb_true_iff. lia. Qed.

Lemma column_dtype_int64 (A : Type) (g : A -> Z) (l : list A) :
  Forall (fun x => in_int64 (g x)) l -> column_dtype (map g l) = Some dt_int64.
Proof.
  intros Hl. unfold column_dtype.
  assert (forallb in_int64b (map g l) = true) as ->; [|done].
  induction Hl as [|x l Hx _ IH]; simpl; [done|].
  rewrite IH, andb_true_r. by apply in_int64b_true.
Qed.

(** A frame whose counts all fit [int64] is stacked as [int64]. *)
Lemma stack_dtype_int64 (table : list row) :
  Forall int64_counts table -> stack_dtype table = Some dt_int64.
Proof.
  intros Hall. unfold stack_dtype.
  rewrite !column_dtype_int64; [done|..];
    (eapply Forall_impl; [exact Hall|]); intros r (H1 & H2 & H3 & H4); done.
Qed.

Lemma melted_row_eta (m : melted_row) :
  {| m연령_구분 := m연령_구분 m; m시도 := m시도 m; 가입유형 := 가입유형 m;
     가입자수 := 가입자수 m |} = m.
Proof. by destruct m. Qed.

(** Where the stack keeps an integer dtype, the counts are copied as they
    are. *)
Lemma pandas_melt_exact (table : list row) :
  stack_dtype table = Some dt_int64 \/ stack_dtype table = Some dt_uint64 ->
  pandas_melt table = Some (melt table).
Proof.
  unfold pandas_melt. intros [-> | ->]; f_equal; simpl;
    (rewrite <- (map_id (melt table)) at 2; apply map_ext; intros m;
     apply melted_row_eta).
Qed.

Lemma pandas_melt_length (table : list row) (m : list melted_row) :
  pandas_melt table = Some m -> length m = (length table * 4)%nat.
Proof.
  unfold pandas_melt. destruct (stack_dtype table); [|done].
  intros [= <-]. by rewrite length_map, melt_length.
Qed.

(** C1, as the code has it. For every table the melted table has four
    times as many rows as the table. When the four count columns are read
    with one integer dtype (all [int64], or all [uint64]), the counts are
    copied as they are, and for each row of the table the counts of its
    four melted rows (one per value column, labelled in the listed order)
    add up to the sum of the row's four enrollment counts. *)
Theorem melt_rows_and_totals (table : list row) :
  length (melt table) = (length table * 4)%nat /\
  (forall m, pandas_melt table = Some m -> length m = (length table * 4)%nat) /\
  (stack_dtype table = Some dt_int64 \/ stack_dtype table = Some dt_uint64 ->
   pandas_melt table = Some (melt table) /\
   forall (i : nat) (r : row), table !! i = Some r ->
     map 가입유형 (melted_rows_of table i) = value_vars /\
     exact_sum (map 가입자수 (melted_rows_of table i))
     = 사업장가입자 (csv r) + 지역가입자 (csv r) + 임의가입자 (csv r)
       + 임의계속가입자 (csv r)).
Proof.
  split; [apply melt_length|]. split; [apply pandas_melt_length|].
  intros Hdt. split; [by apply pandas_melt_exact|]. intros i r Hi.
  rewrite (melted_rows_of_lookup table i r Hi). split; [reflexivity|].
  simpl. lia.
Qed.

Lemma melt_rows_and_totals_witness :
  stack_dtype sample_df = Some dt_int64 /\
  sample_df !! 1%nat = Some {| csv := {| 시군구명 := Str 부산_해운대구;
                                         연령_구분 := Str 이십대;
                                         사업장가입자 := 70; 지역가입자 := 20;
                                         임의가입자 := 3; 임의계속가입자 := 0 |};
                               시도 := 부산 |} /\
  pandas_melt sample_df = Some (melt sample_df) /\
  length (melt sample_df) = 12%nat /\
  exact_sum (map 가입자수 (melted_rows_of sample_df 1)) = 93.
Proof.
  assert (Hdt : stack_dtype sample_df = Some dt_int64) by reflexivity.
  destruct (proj2 (proj2 (melt_rows_and_totals sample_df)) (or_introl Hdt))
    as [Hmelt Hrows].
  split; [exact Hdt|]. split; [reflexivity|]. split; [exact Hmelt|]. split.
  - exact (proj1 (melt_rows_and_totals sample_df)).
  - exact (proj2 (Hrows 1%nat _ eq_refl)).
Defined.

(** C1, as the specification has it, fails on a frame that [pd.read_csv]
    can give: one row with the workplace count 2^63 + 1 and the other
    three counts 1. The workplace column is [uint64], the others [int64],
    the stack is [float64], and the melted counts are 2^63, 1, 1, 1: three
    less in total than the row holds. *)
Lemma melt_totals_counterexample :
  stack_dtype wide_count_df = Some dt_float64 /\
  exists m,
    pandas_melt wide_count_df = Some m /\
    length m = 4%nat /\
    map 가입자수 m = [9223372036854775808; 1; 1; 1] /\
    exact_sum (map 가입자수 m) = 9223372036854775811 /\
    exists r,
      wide_count_df !! 0%nat = Some r /\
      사업장가입자 (csv r) + 지역가입자 (csv r) + 임의가입자 (csv r)
      + 임의계속가입자 (csv r) = 9223372036854775812 /\
      exact_sum (map 가입자수 m)
      <> 사업장가입자 (csv r) + 지역가입자 (csv r) + 임의가입자 (csv r)
         + 임의계속가입자 (csv r).
Proof.
  split; [reflexivity|]. eexists. split; [reflexivity|].
  split; [reflexivity|]. split; [reflexivity|]. split; [reflexivity|].
  eexists. split; [reflexivity|]. split; [reflexivity|].
  vm_compute. discriminate.
Qed.

(** C6, as the code has it. For every table, the melted rows are grouped
    by value column first, in the listed order of the four columns, and
    inside each column they follow the order of the table's rows: the row
    at place [k * length table + i] is value column [k] of table row [i].
    The order by table row first is the same order only for a table of at
    most one row. *)
Theorem melt_order (table : list row) :
  (forall (k i : nat) (v : value_var) (r : row),
     value_vars !! k = Some v -> table !! i = Some r ->
     melt table !! (k * length table + i)%nat = Some (melted_cell v r)) /\
  (melt table = melt_by_row table <-> (length table <= 1)%nat).
Proof.
  split; [intros k i v r; apply melt_lookup|]. split.
  - intros Heq. destruct (decide (length table <= 1)%nat) as [|Hlong]; [done|].
    exfalso. apply (melt_by_row_long table); [lia|done].
  - apply melt_by_row_short.
Qed.

Lemma melt_order_witness :
  value_vars !! 1%nat = Some V지역가입자 /\
  (exists r, sample_df !! 2%nat = Some r /\
     melt sample_df !! 5%nat = Some (melted_cell V지역가입자 r)).
Proof.
  split; [reflexivity|]. eexists. split; [reflexivity|].
  exact (proj1 (melt_order sample_df) 1%nat 2%nat _ _ eq_refl eq_refl).
Defined.

(** C6, as the specification has it, fails on the sample table: its second
    melted row is the first value column of the second table row, where
    the order by table row puts the second value column of the first. *)
Lemma melt_order_counterexample :
  melt sample_df <> melt_by_row sample_df /\
  가입유형 <$> melt sample_df !! 1%nat = Some V사업장가입자 /\
  가입유형 <$> melt_by_row sample_df !! 1%nat = Some V지역가입자.
Proof.
  split; [|split; reflexivity].
  intros Heq. apply (f_equal (fun l => 가입유형 <$> l !! 1%nat)) in Heq.
  vm_compute in Heq. discriminate Heq.
Qed.

(** C3. For every table, the workplace counts of the aggregated table add
    up to the workplace counts of the table: as [int64] sums always, and
    as exact numbers whenever the counts are not negative and their total
    fits [int64]. *)
Theorem groupby_sum_preserves_total (table : list row) :
  int64_sum (map c사업장가입자 (groupby_sum table))
  = int64_sum (map (fun r => 사업장가입자 (csv r)) table) /\
  (Forall (fun r => 0 <= 사업장가입자 (csv r)) table ->
   exact_sum (map (fun r => 사업장가입자 (csv r)) table) < 2^63 ->
   exact_sum (map c사업장가입자 (groupby_sum table))
   = exact_sum (map (fun r => 사업장가입자 (csv r)) table)).
Proof.
  unfold groupby_sum. rewrite !map_map. simpl. split.
  - apply int64_sum_groups.
  - apply exact_sum_groups_int64.
Qed.

Lemma groupby_sum_preserves_total_witness :
  Forall (fun r => 0 <= 사업장가입자 (csv r)) sample_df /\
  exact_sum (map (fun r => 사업장가입자 (csv r)) sample_df) < 2^63 /\
  exact_sum (map c사업장가입자 (groupby_sum sample_df)) = 230.
Proof.
  assert (Hpos : Forall (fun r => 0 <= 사업장가입자 (csv r)) sample_df)
    by (repeat constructor; simpl; lia).
  assert (Hfit : exact_sum (map (fun r => 사업장가입자 (csv r)) sample_df) < 2^63)
    by (vm_compute; reflexivity).
  split; [exact Hpos|]. split; [exact Hfit|].
  exact (proj2 (groupby_sum_preserves_total sample_df) Hpos Hfit).
Defined.

(** C10. For every table, the rows of the aggregated table come in
    strictly ascending order of province name, code point by code point;
    so no province comes twice, and the provinces are exactly those of the
    table. *)
Theorem city_sum_sorted_by_province (table : list row) :
  StronglySorted str_lt (map c시도 (groupby_sum table)) /\
  NoDup (map c시도 (groupby_sum table)) /\
  forall k : pystr, k ∈ map c시도 (groupby_sum table) <-> k ∈ map 시도 table.
Proof.
  rewrite groupby_sum_keys. split; [apply group_keys_sorted|].
  split; [apply group_keys_nodup|]. intros k. apply group_keys_elem.
Qed.

(** * The loader *)

(** C2. For every region name with at least one character that is not
    whitespace, the lambda returns its first whitespace-separated token,
    which is unique; and in a frame that loaded, every row with that
    region name has that token as its province. *)
Theorem province_is_first_token (s : pystr) :
  has_nonspace s ->
  exists t : pystr,
    first_of_split (Str s) = Ok t /\
    first_token s t /\
    (forall t', first_token s t' -> t' = t) /\
    (forall (table : list csv_row) (rows : list row) (i : nat) (r : row),
       assign_시도 table = Ok rows -> rows !! i = Some r ->
       시군구명 (csv r) = Str s -> 시도 r = t).
Proof.
  intros Hs. destruct (split_head s Hs) as (t & l & Hsplit & Htok).
  exists t. simpl. rewrite Hsplit. split; [done|]. split; [done|].
  split; [intros t' Ht'; by apply (first_token_unique s)|].
  intros table rows i r Hrows Hi Hname.
  destruct (assign_시도_lookup table rows Hrows i r Hi) as [_ Hfirst].
  rewrite Hname in Hfirst. simpl in Hfirst. rewrite Hsplit in Hfirst.
  congruence.
Qed.

Lemma province_is_first_token_witness :
  has_nonspace 서울_강남구 /\
  exists t : pystr,
    first_of_split (Str 서울_강남구) = Ok t /\ t = 서울 /\ first_token 서울_강남구 t.
Proof.
  assert (Hs : has_nonspace 서울_강남구) by (apply Exists_cons_hd; reflexivity).
  split; [exact Hs|].
  destruct (province_is_first_token 서울_강남구 Hs) as (t & Hret & Htok & _).
  exists t. split; [exact Hret|]. split; [|exact Htok].
  assert (Hrun : first_of_split (Str 서울_강남구) = Ok 서울) by reflexivity.
  congruence.
Defined.

Section Process.
Context `{Library}.

(** C9. Whenever the loaded table has a row whose region name is
    missing, empty or all whitespace, the derivation of the province
    raises [AttributeError] or [IndexError], nothing catches it, and the
    process ends with a status that is not 0, having written nothing. *)
Theorem blank_region_name_dies (w : world) (text : string)
    (table : list csv_row) :
  files w !! FILE_PATH = Some text -> read_csv text = Ok table ->
  (exists r, r ∈ table /\ no_province (시군구명 r)) ->
  exists e : exception,
    assign_시도 table = Raise e /\
    (e = AttributeError \/ e = IndexError) /\
    run w = (died e, loaded w) /\
    exit_status (run w).1 <> 0 /\
    files (loaded w) = files w.
Proof.
  intros Hfile Htable Hblank.
  destruct (assign_시도_raises table Hblank) as (e & Hraise & He).
  exists e. rewrite run_cases, Hfile, Htable, Hraise. simpl. auto.
Qed.

(** C4. When there is no file at [FILE_PATH], the process prints a line
    that has the path in it and exits with status 1; it has not tried
    to read anything, and the files, the report among them, are as they
    were. *)
Theorem missing_input_exits (w : world) :
  files w !! FILE_PATH = None ->
  exists w' : world,
    run w = (exited 1, w') /\
    exit_status (run w).1 = 1 /\
    events w' = events w ++ [ev_exists FILE_PATH false; ev_print missing_message] /\
    contains FILE_PATH missing_message /\
    files w' = files w /\
    files w' !! OUTPUT_FILE = files w !! OUTPUT_FILE.
Proof.
  intros Hfile. exists (refused w). rewrite run_cases, Hfile. simpl.
  repeat split.
  - by rewrite <- app_assoc.
  - unfold contains. vm_compute. discriminate.
Qed.

(** C8. Two runs on the same input file build the same melted table and
    the same aggregated table, whatever else differs between them (the
    other files, what happened before, the identifiers Plotly draws);
    in particular a second run, started where a first run that finished
    left the world, finishes with the tables of the first. *)
Theorem tables_deterministic (w1 w1' : world) (ns1 : namespace) :
  run w1 = (finished ns1, w1') ->
  (exists ns2 w2',
     run w1' = (finished ns2, w2') /\
     df_melted ns2 = df_melted ns1 /\ city_sum ns2 = city_sum ns1) /\
  (forall w2 : world,
     files w2 !! FILE_PATH = files w1 !! FILE_PATH ->
     exists ns2 w2',
       run w2 = (finished ns2, w2') /\
       df_melted ns2 = df_melted ns1 /\ city_sum ns2 = city_sum ns1).
Proof.
  intros (text & table & rows & Hfile & Htable & Hrows & -> & ->)%run_finished.
  assert (Hany : forall w2 : world,
    files w2 !! FILE_PATH = files w1 !! FILE_PATH ->
    exists ns2 w2',
      run w2 = (finished ns2, w2') /\
      df_melted ns2 = melt rows /\ city_sum ns2 = groupby_sum rows).
  { intros w2 Hsame. rewrite Hfile in Hsame.
    eexists _, _. split; [by apply (run_loads w2 text table rows)|]. done. }
  split; [|exact Hany]. apply Hany.
  unfold reported. cbn [files]. apply lookup_insert_ne.
  intros Heq. by apply paths_differ.
Qed.
End Process.

Lemma sample_world_file : files sample_world !! FILE_PATH = Some "csv"%string.
Proof. apply lookup_singleton_eq. Qed.

Lemma sample_table_loads : assign_시도 sample_table = Ok sample_df.
Proof. reflexivity. Qed.

Lemma blank_table_has_blank :
  exists r, r ∈ blank_table /\ no_province (시군구명 r).
Proof.
  exists blank_row. split.
  - unfold blank_table, sample_table. apply elem_of_cons. right.
    apply elem_of_cons. by left.
  - right. eexists. split; [reflexivity|]. by repeat constructor.
Qed.

Lemma blank_region_name_dies_witness :
  files sample_world !! FILE_PATH = Some "csv"%string /\
  (exists r, r ∈ blank_table /\ no_province (시군구명 r)) /\
  exists e : exception,
    @run (sample_library blank_table) sample_world = (died e, loaded sample_world) /\
    exit_status (@run (sample_library blank_table) sample_world).1 <> 0.
Proof.
  split; [exact sample_world_file|]. split; [exact blank_table_has_blank|].
  destruct (@blank_region_name_dies (sample_library blank_table) sample_world
              "csv"%string blank_table sample_world_file eq_refl
              blank_table_has_blank)
    as (e & _ & _ & Hrun & Hstatus & _).
  exists e. split; [exact Hrun | exact Hstatus].
Defined.

Lemma empty_handed_world_file : files empty_handed_world !! FILE_PATH = None.
Proof.
  apply lookup_singleton_ne. intros Heq. by apply paths_differ.
Qed.

Lemma missing_input_exits_witness :
  files empty_handed_world !! FILE_PATH = None /\
  exists w' : world,
    @run (sample_library sample_table) empty_handed_world = (exited 1, w') /\
    files w' !! OUTPUT_FILE = Some "old report"%string.
Proof.
  split; [exact empty_handed_world_file|].
  destruct (@missing_input_exits (sample_library sample_table)
              empty_handed_world empty_handed_world_file)
    as (w' & Hrun & _ & _ & _ & _ & Hout).
  exists w'. split; [exact Hrun|]. rewrite Hout. apply lookup_singleton_eq.
Defined.

Lemma sample_run :
  @run (sample_library sample_table) sample_world = (finished sample_ns, sample_report).
Proof.
  apply (@run_loads (sample_library sample_table) sample_world "csv"%string
           sample_table sample_df sample_world_file eq_refl sample_table_loads).
Qed.

Lemma tables_deterministic_witness :
  @run (sample_library sample_table) sample_world = (finished sample_ns, sample_report) /\
  exists ns2 w2',
    @run (sample_library sample_table) sample_report = (finished ns2, w2') /\
    df_melted ns2 = df_melted sample_ns /\ city_sum ns2 = city_sum sample_ns.
Proof.
  split; [exact sample_run|].
  exact (proj1 (@tables_deterministic (sample_library sample_table)
                  sample_world sample_report sample_ns sample_run)).
Defined.

(** * The report *)

Lemma append_assoc (a b c : string) : (a +:+ b) +:+ c = a +:+ b +:+ c.
Proof.
  induction a as [|x a IH]; [done|].
  change (String x ((a +:+ b) +:+ c) = String x (a +:+ b +:+ c)).
  by rewrite IH.
Qed.

(** Each of the three holes of the template stands right inside a chart
    container. *)
Lemma template_slots :
  exists a b c,
    html_before_age = a +:+ chart_slot /\
    html_age_to_region = b +:+ chart_slot /\
    html_region_to_compare = c +:+ chart_slot.
Proof.
  exists (substring 0 (String.length html_before_age - String.length chart_slot)
            html_before_age),
    (substring 0 (String.length html_age_to_region - String.length chart_slot)
       html_age_to_region),
    (substring 0 (String.length html_region_to_compare - String.length chart_slot)
       html_region_to_compare).
  repeat split; vm_compute; reflexivity.
Qed.

Lemma html_template_slots (f1 f2 f3 : string) :
  exists a b c d,
    html_template f1 f2 f3
    = a +:+ chart_slot +:+ f1 +:+ b +:+ chart_slot +:+ f2
      +:+ c +:+ chart_slot +:+ f3 +:+ d.
Proof.
  destruct template_slots as (a & b & c & Ea & Eb & Ec).
  exists a, b, c, html_after_compare. unfold html_template.
  rewrite Ea, Eb, Ec. by rewrite !append_assoc.
Qed.

Section Report.
Context `{Library}.

(** C5, as the code has it. For every run that finishes, with fragments
    that bring no container, link or section markup of their own, the
    report written to [OUTPUT_FILE] has exactly three chart containers,
    one in front of each fragment, and exactly four navigation links
    and four sections, the anchors of the links being the ids of the
    sections in the same order. *)
Theorem report_structure (w w' : world) (ns : namespace) :
  run w = (finished ns, w') ->
  plain (div_age ns) -> plain (div_region ns) -> plain (div_compare ns) ->
  files w' !! OUTPUT_FILE = Some (html ns) /\
  chart_containers (html ns) = 3%nat /\
  (exists a b c d,
     html ns = a +:+ chart_slot +:+ div_age ns +:+ b +:+ chart_slot
               +:+ div_region ns +:+ c +:+ chart_slot +:+ div_compare ns
               +:+ d) /\
  nav_anchors (html ns)
  = ["overview"; "age-analysis"; "region-analysis"; "comparison"]%string /\
  section_ids (html ns) = nav_anchors (html ns).
Proof.
  intros (text & table & rows & _ & _ & _ & -> & ->)%run_finished.
  unfold bindings. cbn [div_age div_region div_compare html].
  intros Ha Hr Hc. split; [apply lookup_insert_eq|].
  rewrite (chart_containers_template _ _ _ Ha Hr Hc).
  rewrite (nav_anchors_template _ _ _ Ha Hr Hc).
  rewrite (section_ids_template _ _ _ Ha Hr Hc).
  split; [done|]. split; [apply html_template_slots|done].
Qed.

(** C7. When Plotly puts the reference to plotly.js into what it writes
    exactly when asked to, then in every run that finishes the fragment
    of the age figure has the reference and the other two have not; the
    report is the template with the age fragment in its first hole, and
    the reference is in the report before the second hole is reached. *)
Theorem plotlyjs_once_and_first (w w' : world) (ns : namespace) :
  (forall fig id, contains plotlyjs_ref (to_html fig cdn id)) ->
  (forall fig id, ~ contains plotlyjs_ref (to_html fig no_plotlyjs id)) ->
  run w = (finished ns, w') ->
  contains plotlyjs_ref (div_age ns) /\
  ~ contains plotlyjs_ref (div_region ns) /\
  ~ contains plotlyjs_ref (div_compare ns) /\
  html ns = html_before_age +:+ div_age ns +:+ html_age_to_region
            +:+ div_region ns +:+ html_region_to_compare
            +:+ div_compare ns +:+ html_after_compare /\
  contains plotlyjs_ref (html_before_age +:+ div_age ns) /\
  files w' !! OUTPUT_FILE = Some (html ns).
Proof.
  intros Hcdn Hnone (text & table & rows & _ & _ & _ & -> & ->)%run_finished.
  unfold bindings. cbn [div_age div_region div_compare html].
  split; [apply Hcdn|]. split; [apply Hnone|]. split; [apply Hnone|].
  split; [reflexivity|]. split; [apply contains_app, Hcdn|].
  apply lookup_insert_eq.
Qed.
End Report.

Lemma sample_fragments_plain :
  plain (div_age sample_ns) /\ plain (div_region sample_ns) /\
  plain (div_compare sample_ns).
Proof. repeat split; vm_compute; reflexivity. Qed.

Lemma report_structure_witness :
  @run (sample_library sample_table) sample_world = (finished sample_ns, sample_report) /\
  plain (div_age sample_ns) /\ plain (div_region sample_ns) /\
  plain (div_compare sample_ns) /\
  files sample_report !! OUTPUT_FILE = Some (html sample_ns) /\
  chart_containers (html sample_ns) = 3%nat /\
  section_ids (html sample_ns) = nav_anchors (html sample_ns).
Proof.
  destruct sample_fragments_plain as (Ha & Hr & Hc).
  destruct (@report_structure (sample_library sample_table) sample_world
              sample_report sample_ns sample_run Ha Hr Hc)
    as (Hfile & Hcount & _ & _ & Hids).
  split; [exact sample_run|]. split; [exact Ha|]. split; [exact Hr|].
  split; [exact Hc|]. split; [exact Hfile|]. split; [exact Hcount | exact Hids].
Defined.

(** C5, as the specification has it, fails on the sample run: the report
    has three chart containers, not four. The overview section is the one
    without a chart; the text [chart-container] does occur a fourth time,
    in the style sheet. *)
Lemma four_chart_containers_counterexample :
  @run (sample_library sample_table) sample_world = (finished sample_ns, sample_report) /\
  files sample_report !! OUTPUT_FILE = Some (html sample_ns) /\
  chart_containers (html sample_ns) = 3%nat /\
  chart_containers (html sample_ns) <> 4%nat /\
  count_occurrences "chart-container" (html sample_ns) = 4%nat /\
  length (nav_anchors (html sample_ns)) = 4%nat.
Proof.
  split; [exact sample_run|]. split; [apply lookup_insert_eq|].
  assert (Hthree : chart_containers (html sample_ns) = 3%nat)
    by (vm_compute; reflexivity).
  split; [exact Hthree|]. split; [rewrite Hthree; discriminate|].
  split; vm_compute; reflexivity.
Qed.

Lemma sample_library_cdn (fig : figure) (id : N) :
  contains (@plotlyjs_ref (sample_library sample_table))
    (@to_html (sample_library sample_table) fig cdn id).
Proof. unfold contains. vm_compute. discriminate. Qed.

Lemma sample_library_no_plotlyjs (fig : figure) (id : N) :
  ~ contains (@plotlyjs_ref (sample_library sample_table))
      (@to_html (sample_library sample_table) fig no_plotlyjs id).
Proof. unfold contains. vm_compute. intros Hc. by apply Hc. Qed.

Lemma plotlyjs_once_and_first_witness :
  (forall fig id, contains (@plotlyjs_ref (sample_library sample_table))
                    (@to_html (sample_library sample_table) fig cdn id)) /\
  (forall fig id, ~ contains (@plotlyjs_ref (sample_library sample_table))
                      (@to_html (sample_library sample_table) fig no_plotlyjs id)) /\
  @run (sample_library sample_table) sample_world = (finished sample_ns, sample_report) /\
  contains sample_ref (div_age sample_ns) /\
  ~ contains sample_ref (div_region sample_ns) /\
  ~ contains sample_ref (div_compare sample_ns) /\
  contains sample_ref (html_before_age +:+ div_age sample_ns).
Proof.
  destruct (@plotlyjs_once_and_first (sample_library sample_table) sample_world
              sample_report sample_ns sample_library_cdn
              sample_library_no_plotlyjs sample_run)
    as (Ha & Hr & Hc & _ & Hfirst & _).
  split; [exact sample_library_cdn|]. split; [exact sample_library_no_plotlyjs|].
  split; [exact sample_run|]. split; [exact Ha|]. split; [exact Hr|].
  split; [exact Hc | exact Hfirst].
Defined.

(** * Further properties *)

(** ** More on [str.split()] *)

(** Induction along the turns of the outer loop of [split]. *)
Lemma split_ind (P : pystr -> list pystr -> Prop) :
  (forall s, skip_space s = [] -> P s []) ->
  (forall s c r t rest,
     skip_space s = c :: r -> scan_token r = (t, rest) ->
     P rest (split rest) -> P s ((c :: t) :: split rest)) ->
  forall s, P s (split s).
Proof.
  intros Hnil Hcons s. remember (length s) as n eqn:Hn. revert s Hn.
  induction n as [n IH] using lt_wf_ind. intros s ->.
  rewrite split_unfold.
  pose proof (skip_space_length s) as Hskip.
  destruct (skip_space s) as [|c r] eqn:Es; [by apply Hnil|].
  pose proof (scan_token_length r) as Hscan.
  destruct (scan_token r) as [t rest] eqn:Er. simpl in *.
  apply (Hcons s c r t rest Es Er). apply (IH (length rest)); [lia|done].
Qed.

Lemma blank_or_nonspace (s : pystr) : blank s \/ has_nonspace s.
Proof.
  induction s as [|c s [IH|IH]].
  - left. constructor.
  - destruct (isspace c) eqn:Hc.
    + left. by constructor.
    + right. by apply Exists_cons_hd.
  - right. by apply Exists_cons_tl.
Qed.

Lemma blank_not_nonspace (s : pystr) : blank s -> has_nonspace s -> False.
Proof.
  unfold blank, has_nonspace. intros Hb Hn.
  apply Exists_exists in Hn as (c & Hc & Hfalse).
  rewrite Forall_forall in Hb. specialize (Hb c Hc). congruence.
Qed.

Lemma filter_nonspace_spaces (ws : list N) :
  Forall (fun c => isspace c = true) ws ->
  filter (fun c => isspace c = false) ws = [].
Proof.
  induction 1 as [|c ws Hc _ IH]; [done|].
  rewrite filter_cons. destruct (decide (isspace c = false)); [congruence|done].
Qed.

Lemma filter_nonspace_token (t : list N) :
  Forall (fun c => isspace c = false) t ->
  filter (fun c => isspace c = false) t = t.
Proof.
  induction 1 as [|c t Hc _ IH]; [done|].
  rewrite filter_cons. destruct (decide (isspace c = false)); [|done].
  by rewrite IH.
Qed.

(** X1. Every element of [split s] is a token: it is not empty and has no
    whitespace in it. *)
Theorem split_gives_tokens (s : pystr) : Forall token (split s).
Proof.
  apply (split_ind (fun _ l => Forall token l)); [constructor|].
  intros s' c r t rest Hskip Hscan IH. constructor; [|done].
  split; [done|]. constructor.
  - destruct (skip_space_spec s') as (ws & _ & _ & Hhd). by rewrite Hskip in Hhd.
  - destruct (scan_token_spec r) as (_ & Ht & _). by rewrite Hscan in Ht.
Qed.

(** X2. [split] loses whitespace and nothing else: the tokens put end to
    end are the text with its whitespace taken out, in the same order. *)
Theorem split_keeps_all_but_whitespace (s : pystr) :
  concat (split s) = filter (fun c => isspace c = false) s.
Proof.
  apply (split_ind (fun (s : list N) l =>
                      concat l = filter (fun c => isspace c = false) s)).
  - intros s' Hskip. destruct (skip_space_spec s') as (ws & Heq & Hws & _).
    rewrite Hskip, app_nil_r in Heq. subst ws.
    by rewrite filter_nonspace_spaces.
  - intros s' c r t rest Hskip Hscan IH.
    destruct (skip_space_spec s') as (ws & Heq & Hws & Hhd).
    rewrite Hskip in Heq, Hhd.
    destruct (scan_token_spec r) as (Hr & Ht & _). rewrite Hscan in Hr, Ht.
    simpl in Hr, Ht. rewrite Heq, Hr.
    rewrite filter_app, filter_nonspace_spaces by done.
    rewrite filter_cons. destruct (decide (isspace c = false)); [|done].
    rewrite filter_app, filter_nonspace_token by done.
    rewrite <- IH. reflexivity.
Qed.

(** X3. [split s] is the empty list exactly when [s] is empty or all
    whitespace; that is when index 0 raises. *)
Theorem split_nil_iff_blank (s : pystr) :
  (split s = [] <-> blank s) /\
  (first_of_split (Str s) = Raise IndexError <-> blank s).
Proof.
  assert (Hiff : split s = [] <-> blank s).
  { split; [|apply split_blank]. intros Hnil.
    destruct (blank_or_nonspace s) as [|Hs]; [done|].
    destruct (split_head s Hs) as (t & l & Hsplit & _). congruence. }
  split; [exact Hiff|]. simpl. rewrite <- Hiff.
  destruct (split s); split; congruence.
Qed.

(** A token splits into itself. *)
Lemma split_token (t : pystr) : token t -> split t = [t].
Proof.
  intros [Hne Ht]. destruct t as [|c t]; [done|].
  apply Forall_cons in Ht as [Hc Ht].
  rewrite split_unfold. simpl. rewrite Hc.
  pose proof (scan_token_app t [] Ht I) as Hscan. rewrite app_nil_r in Hscan.
  by rewrite Hscan.
Qed.

(** ** More on the derived column *)

Lemma first_of_split_ok (x : cell) (t : pystr) :
  first_of_split x = Ok t ->
  exists s, x = Str s /\ has_nonspace s /\ first_token s t /\ token t.
Proof.
  destruct x as [s|]; simpl; [|done].
  destruct (split s) as [|u l] eqn:Hsplit; [done|]. intros [= ->].
  assert (Hs : has_nonspace s).
  { destruct (blank_or_nonspace s) as [Hb|]; [|done].
    apply split_blank in Hb. congruence. }
  exists s. split; [done|]. split; [done|].
  destruct (split_head s Hs) as (t' & l' & Hsplit' & Htok).
  assert (t' = t) as -> by congruence. split; [done|].
  destruct Htok as (_ & _ & _ & _ & Hne & Ht & _). by split.
Qed.

Lemma first_of_split_error (x : cell) :
  no_province x -> first_of_split x = Raise (province_error x).
Proof.
  intros [->|(s & -> & Hs)]; simpl; [done|]. by rewrite split_blank.
Qed.

(** X4. A frame that loaded is the table with one column more: same rows
    in the same order, and in every row the region name is a text, the
    province is its first token, a token itself, which [split] gives back
    unchanged. *)
Theorem loaded_frame_invariant (table : list csv_row) (rows : list row) :
  assign_시도 table = Ok rows ->
  map csv rows = table /\
  Forall (fun r => exists s, 시군구명 (csv r) = Str s /\
                     first_token s (시도 r) /\ token (시도 r) /\
                     split (시도 r) = [시도 r]) rows.
Proof.
  revert rows. induction table as [|x table IH]; simpl; intros rows.
  - intros [= <-]. split; [done|constructor].
  - destruct (first_of_split (시군구명 x)) as [t|] eqn:Hx; [|done].
    destruct (assign_시도 table) as [rows'|]; [|done].
    intros [= <-]. destruct (IH rows' eq_refl) as [Hcsv Hall].
    split; [simpl; by rewrite Hcsv|]. constructor; [|done]. simpl.
    destruct (first_of_split_ok _ _ Hx) as (s & Hs & _ & Htok & Ht).
    exists s. split; [done|]. split; [done|]. split; [done|].
    by apply split_token.
Qed.

Lemma loaded_frame_invariant_witness :
  assign_시도 sample_table = Ok sample_df /\
  map csv sample_df = sample_table /\
  Forall (fun r => exists s, 시군구명 (csv r) = Str s /\
                     first_token s (시도 r) /\ token (시도 r) /\
                     split (시도 r) = [시도 r]) sample_df.
Proof.
  split; [reflexivity|].
  exact (loaded_frame_invariant sample_table sample_df eq_refl).
Defined.

Lemma assign_시도_ok_has_province (table : list csv_row) (rows : list row) :
  assign_시도 table = Ok rows ->
  Forall (fun r => has_province (시군구명 r)) table.
Proof.
  revert rows. induction table as [|x table IH]; simpl; intros rows;
    [constructor|].
  destruct (first_of_split (시군구명 x)) as [t|] eqn:Hx; [|done].
  destruct (assign_시도 table) as [rows'|]; [|done].
  intros _. constructor; [|by apply (IH rows')].
  destruct (first_of_split_ok _ _ Hx) as (s & Hs & Hn & _). by exists s.
Qed.

(** X5. The column is derived for the whole table exactly when every
    region name is a text with a character that is not whitespace. *)
Theorem derived_column_succeeds_iff (table : list csv_row) :
  (exists rows, assign_시도 table = Ok rows) <->
  Forall (fun r => has_province (시군구명 r)) table.
Proof.
  split.
  - intros [rows Hrows]. by apply (assign_시도_ok_has_province table rows).
  - apply assign_시도_total.
Qed.

(** X6. The first row whose region name gives no province decides how the
    derivation ends: [AttributeError] when the name is missing,
    [IndexError] when it is a text without a token, whatever the rows
    after it hold. *)
Theorem first_bad_row_decides (good : list csv_row) (bad : csv_row)
    (rest : list csv_row) :
  Forall (fun r => has_province (시군구명 r)) good ->
  no_province (시군구명 bad) ->
  assign_시도 (good ++ bad :: rest) = Raise (province_error (시군구명 bad)).
Proof.
  intros Hgood Hbad. induction Hgood as [|x good (s & Hx & Hs) _ IH]; simpl.
  - by rewrite first_of_split_error.
  - rewrite Hx. simpl. destruct (split_head s Hs) as (t & l & -> & _).
    by rewrite IH.
Qed.

Lemma first_bad_row_decides_witness :
  Forall (fun r => has_province (시군구명 r)) (take 1 sample_table) /\
  no_province (시군구명 blank_row) /\
  assign_시도 (take 1 sample_table ++ blank_row :: [blank_row]) = Raise IndexError.
Proof.
  assert (Hgood : Forall (fun r => has_province (시군구명 r)) (take 1 sample_table)).
  { repeat constructor. exists 서울_강남구. split; [reflexivity|].
    apply Exists_cons_hd. reflexivity. }
  assert (Hbad : no_province (시군구명 blank_row)).
  { right. eexists. split; [reflexivity|]. by repeat constructor. }
  split; [exact Hgood|]. split; [exact Hbad|].
  exact (first_bad_row_decides (take 1 sample_table) blank_row [blank_row]
           Hgood Hbad).
Defined.

(** ** More on melt *)

Lemma exact_sum_app (l1 l2 : list Z) :
  exact_sum (l1 ++ l2) = exact_sum l1 + exact_sum l2.
Proof. induction l1 as [|x l1 IH]; simpl; lia. Qed.

Lemma melt_counts (table : list row) :
  map 가입자수 (melt table)
  = map (fun r => 사업장가입자 (csv r)) table ++ map (fun r => 지역가입자 (csv r)) table
    ++ map (fun r => 임의가입자 (csv r)) table
    ++ map (fun r => 임의계속가입자 (csv r)) table.
Proof. by rewrite melt_unfold, !map_app, !map_map. Qed.

Lemma int64_add_wrapped (x y : Z) : int64_add (wrap64 x) (wrap64 y) = wrap64 (x + y).
Proof. unfold int64_add. by rewrite wrap64_add_l, wrap64_add_r. Qed.

Lemma melt_counts_total (table : list row) :
  exact_sum (map 가입자수 (melt table))
  = exact_sum (map (fun r => 사업장가입자 (csv r)) table)
    + exact_sum (map (fun r => 지역가입자 (csv r)) table)
    + exact_sum (map (fun r => 임의가입자 (csv r)) table)
    + exact_sum (map (fun r => 임의계속가입자 (csv r)) table).
Proof. rewrite melt_counts, !exact_sum_app. lia. Qed.

(** X7. For a frame whose counts all fit [int64], the melted counts are
    the counts of the frame, and they add up to the four value columns of
    the frame taken together, exactly and as an [int64] sum. *)
Theorem melt_grand_total (table : list row) (m : list melted_row) :
  Forall int64_counts table ->
  pandas_melt table = Some m ->
  exact_sum (map 가입자수 m)
  = exact_sum (map (fun r => 사업장가입자 (csv r)) table)
    + exact_sum (map (fun r => 지역가입자 (csv r)) table)
    + exact_sum (map (fun r => 임의가입자 (csv r)) table)
    + exact_sum (map (fun r => 임의계속가입자 (csv r)) table) /\
  int64_sum (map 가입자수 m)
  = int64_add
      (int64_add
         (int64_add (int64_sum (map (fun r => 사업장가입자 (csv r)) table))
                    (int64_sum (map (fun r => 지역가입자 (csv r)) table)))
         (int64_sum (map (fun r => 임의가입자 (csv r)) table)))
      (int64_sum (map (fun r => 임의계속가입자 (csv r)) table)).
Proof.
  intros Hfit Hm.
  rewrite (pandas_melt_exact table) in Hm
    by (left; by apply stack_dtype_int64).
  injection Hm as <-. split; [apply melt_counts_total|].
  rewrite !int64_sum_exact, melt_counts_total. by rewrite !int64_add_wrapped.
Qed.

Lemma sample_df_int64 : Forall int64_counts sample_df.
Proof. repeat constructor; unfold in_int64; simpl; lia. Qed.

Lemma melt_grand_total_witness :
  Forall int64_counts sample_df /\
  pandas_melt sample_df = Some (melt sample_df) /\
  exact_sum (map 가입자수 (melt sample_df)) = 230 + 60 + 10 + 5.
Proof.
  assert (Hm : pandas_melt sample_df = Some (melt sample_df)) by reflexivity.
  split; [exact sample_df_int64|]. split; [exact Hm|].
  exact (proj1 (melt_grand_total sample_df (melt sample_df) sample_df_int64 Hm)).
Defined.

Lemma melted_cell_columns (v : value_var) (r1 r2 : row) :
  melt_columns r1 = melt_columns r2 -> melted_cell v r1 = melted_cell v r2.
Proof.
  unfold melt_columns, melted_cell, value_of. intros [= -> -> -> -> -> ->].
  by destruct v.
Qed.

(** Stacking alone keeps all it reads and reads nothing else. *)
Lemma melt_eq_iff_columns (t1 t2 : list row) :
  melt t1 = melt t2 <-> map melt_columns t1 = map melt_columns t2.
Proof.
  split.
  - intros Heq.
    assert (Hlen : length t1 = length t2).
    { apply (f_equal length) in Heq. rewrite !melt_length in Heq. lia. }
    apply list_eq. intros i. rewrite !list_lookup_fmap.
    destruct (t1 !! i) as [r1|] eqn:E1, (t2 !! i) as [r2|] eqn:E2; simpl.
    + f_equal.
      assert (Hv : forall k v, value_vars !! k = Some v ->
                               melted_cell v r1 = melted_cell v r2).
      { intros k v Hk. pose proof (melt_lookup t1 k i v r1 Hk E1) as H1.
        pose proof (melt_lookup t2 k i v r2 Hk E2) as H2.
        rewrite Heq, Hlen, H2 in H1. congruence. }
      pose proof (Hv 0%nat _ eq_refl) as H0. pose proof (Hv 1%nat _ eq_refl) as H1.
      pose proof (Hv 2%nat _ eq_refl) as H2. pose proof (Hv 3%nat _ eq_refl) as H3.
      unfold melted_cell, value_of in *. unfold melt_columns. congruence.
    + apply lookup_lt_Some in E1. apply lookup_ge_None in E2. lia.
    + apply lookup_ge_None in E1. apply lookup_lt_Some in E2. lia.
    + done.
  - intros Heq. rewrite !melt_unfold.
    assert (Hv : forall v, map (melted_cell v) t1 = map (melted_cell v) t2).
    { intros v. apply list_eq. intros i. rewrite !list_lookup_fmap.
      apply (f_equal (fun l => l !! i)) in Heq. rewrite !list_lookup_fmap in Heq.
      destruct (t1 !! i) as [r1|], (t2 !! i) as [r2|]; simpl in *; try done.
      f_equal. apply melted_cell_columns. congruence. }
    by rewrite !Hv.
Qed.

(** X8. For frames whose counts all fit [int64], [melt] keeps all it
    reads and reads nothing else: two such frames melt to the same table
    exactly when they agree, row by row, on the two identifier columns
    and the four value columns. The region name is not among them. *)
Theorem melt_lossless (t1 t2 : list row) :
  Forall int64_counts t1 -> Forall int64_counts t2 ->
  (pandas_melt t1 = pandas_melt t2 <-> map melt_columns t1 = map melt_columns t2).
Proof.
  intros H1 H2.
  rewrite (pandas_melt_exact t1) by (left; by apply stack_dtype_int64).
  rewrite (pandas_melt_exact t2) by (left; by apply stack_dtype_int64).
  rewrite <- melt_eq_iff_columns. split; [by intros [= ->]|by intros ->].
Qed.

Lemma melt_lossless_witness :
  Forall int64_counts sample_df_renamed /\ Forall int64_counts sample_df /\
  sample_df_renamed <> sample_df /\
  pandas_melt sample_df_renamed = pandas_melt sample_df.
Proof.
  assert (H1 : Forall int64_counts sample_df_renamed)
    by (repeat constructor; unfold in_int64; simpl; lia).
  split; [exact H1|]. split; [exact sample_df_int64|].
  split; [intros Heq; vm_compute in Heq; discriminate Heq|].
  exact (proj2 (melt_lossless sample_df_renamed sample_df H1 sample_df_int64)
           eq_refl).
Defined.

(** Out of that range the stack can be [float64], and [melt] rounds: the
    frames with the workplace counts 2^63 + 1 and 2^63 melt to the same
    table. *)
Example pandas_melt_rounds :
  map melt_columns wide_count_df <> map melt_columns wide_count_df' /\
  pandas_melt wide_count_df = pandas_melt wide_count_df'.
Proof.
  split; [|reflexivity]. intros Heq. vm_compute in Heq. discriminate Heq.
Qed.

(** ** More on groupby *)

#[global] Instance str_le_antisym : AntiSymm (=) str_le.
Proof.
  intros a b Hab Hba. unfold str_le in *. rewrite (str_compare_opp a b) in Hba.
  destruct (str_compare a b) eqn:E; simpl in *; [|done|done].
  by apply str_compare_eq.
Qed.

Lemma exact_sum_perm (l1 l2 : list Z) : l1 ≡ₚ l2 -> exact_sum l1 = exact_sum l2.
Proof. induction 1; simpl; lia. Qed.

Lemma int64_sum_perm (l1 l2 : list Z) : l1 ≡ₚ l2 -> int64_sum l1 = int64_sum l2.
Proof. intros Hp. by rewrite !int64_sum_exact, (exact_sum_perm l1 l2). Qed.

Lemma group_keys_perm_eq (t1 t2 : list row) :
  t1 ≡ₚ t2 -> group_keys t1 = group_keys t2.
Proof.
  intros Hp. apply (StronglySorted_unique str_le).
  - apply StronglySorted_merge_sort; apply _.
  - apply StronglySorted_merge_sort; apply _.
  - rewrite !group_keys_perm.
    apply NoDup_Permutation; [apply NoDup_remove_dups..|].
    intros k. rewrite !elem_of_remove_dups. by rewrite Hp.
Qed.

Lemma agg_sum_perm (k : pystr) (t1 t2 : list row) :
  t1 ≡ₚ t2 -> agg_sum k t1 = agg_sum k t2.
Proof.
  intros Hp. unfold agg_sum, group.
  assert (Hg : filter (fun r => 시도 r = k) t1 ≡ₚ filter (fun r => 시도 r = k) t2)
    by by rewrite Hp.
  f_equal; apply int64_sum_perm; by rewrite Hg.
Qed.

(** X9. The aggregated table does not depend on the order of the rows of
    the frame. *)
Theorem groupby_sum_order_independent (t1 t2 : list row) :
  t1 ≡ₚ t2 -> groupby_sum t1 = groupby_sum t2.
Proof.
  intros Hp. unfold groupby_sum. rewrite (group_keys_perm_eq t1 t2 Hp).
  apply map_ext. intros k. by apply agg_sum_perm.
Qed.

Lemma groupby_sum_order_independent_witness :
  sample_df_swapped ≡ₚ sample_df /\
  groupby_sum sample_df_swapped = groupby_sum sample_df.
Proof.
  assert (Hp : sample_df_swapped ≡ₚ sample_df) by apply perm_swap.
  split; [exact Hp|].
  exact (groupby_sum_order_independent sample_df_swapped sample_df Hp).
Defined.

(** X11. The aggregated table has no more rows than the frame, and none
    exactly when the frame has none. *)
Theorem city_sum_size (table : list row) :
  (length (groupby_sum table) <= length table)%nat /\
  (groupby_sum table = [] <-> table = []).
Proof.
  assert (Hlen : length (groupby_sum table) = length (remove_dups (map 시도 table))).
  { unfold groupby_sum. by rewrite length_map, group_keys_perm. }
  split.
  - rewrite Hlen, <- (length_map 시도 table).
    apply submseteq_length, NoDup_submseteq; [apply NoDup_remove_dups|].
    intros k. by rewrite elem_of_remove_dups.
  - split.
    + intros Hnil. destruct table as [|r table]; [done|].
      assert (시도 r ∈ map c시도 (groupby_sum (r :: table))) as Hin.
      { rewrite groupby_sum_keys. apply group_keys_elem. simpl.
        apply elem_of_cons. by left. }
      rewrite Hnil in Hin. by apply elem_of_nil in Hin.
    + by intros ->.
Qed.

(** X12. The regional and the voluntary counts keep their totals through
    the aggregation as the workplace counts do: as [int64] sums always,
    and exactly when the counts are not negative and the total fits
    [int64]. *)
Theorem groupby_sum_preserves_other_totals (table : list row) :
  int64_sum (map c지역가입자 (groupby_sum table))
  = int64_sum (map (fun r => 지역가입자 (csv r)) table) /\
  int64_sum (map c임의가입자 (groupby_sum table))
  = int64_sum (map (fun r => 임의가입자 (csv r)) table) /\
  (Forall (fun r => 0 <= 지역가입자 (csv r)) table ->
   exact_sum (map (fun r => 지역가입자 (csv r)) table) < 2^63 ->
   exact_sum (map c지역가입자 (groupby_sum table))
   = exact_sum (map (fun r => 지역가입자 (csv r)) table)) /\
  (Forall (fun r => 0 <= 임의가입자 (csv r)) table ->
   exact_sum (map (fun r => 임의가입자 (csv r)) table) < 2^63 ->
   exact_sum (map c임의가입자 (groupby_sum table))
   = exact_sum (map (fun r => 임의가입자 (csv r)) table)).
Proof.
  unfold groupby_sum. rewrite !map_map. simpl.
  split; [apply int64_sum_groups|]. split; [apply int64_sum_groups|].
  split; apply exact_sum_groups_int64.
Qed.

Lemma groupby_sum_preserves_other_totals_witness :
  Forall (fun r => 0 <= 지역가입자 (csv r)) sample_df /\
  exact_sum (map (fun r => 지역가입자 (csv r)) sample_df) < 2^63 /\
  exact_sum (map c지역가입자 (groupby_sum sample_df)) = 60.
Proof.
  assert (Hpos : Forall (fun r => 0 <= 지역가입자 (csv r)) sample_df)
    by (repeat constructor; simpl; lia).
  assert (Hfit : exact_sum (map (fun r => 지역가입자 (csv r)) sample_df) < 2^63)
    by (vm_compute; reflexivity).
  split; [exact Hpos|]. split; [exact Hfit|].
  exact (proj1 (proj2 (proj2 (groupby_sum_preserves_other_totals sample_df)))
           Hpos Hfit).
Defined.

(** ** More on the process *)

Section ProcessFacts.
Context `{Library}.

(** X13. The exit status is 0 or 1. It is 0 only when the input file is
    there, the parser accepts it and every region name of the table gives
    a province; when one of these fails it is 1. *)
Theorem exit_status_zero_only_if (w : world) :
  (exit_status (run w).1 = 0 \/ exit_status (run w).1 = 1) /\
  (exit_status (run w).1 = 0 ->
   exists text table,
     files w !! FILE_PATH = Some text /\ read_csv text = Ok table /\
     Forall (fun r => has_province (시군구명 r)) table) /\
  (files w !! FILE_PATH = None -> exit_status (run w).1 = 1) /\
  (forall text e, files w !! FILE_PATH = Some text -> read_csv text = Raise e ->
                  exit_status (run w).1 = 1) /\
  (forall text table r,
     files w !! FILE_PATH = Some text -> read_csv text = Ok table ->
     r ∈ table -> no_province (시군구명 r) -> exit_status (run w).1 = 1).
Proof.
  rewrite run_cases.
  destruct (files w !! FILE_PATH) as [text|] eqn:Hfile; simpl.
  2:{ split; [by right|]. split; [done|]. split; [done|].
      split; [by intros ? ? [= ]|by intros ? ? ? [= ]]. }
  destruct (read_csv text) as [table|e] eqn:Htable; simpl.
  2:{ split; [by right|]. split; [done|]. split; [done|]. split; done. }
  destruct (assign_시도 table) as [rows|e] eqn:Hrows; simpl.
  - split; [by left|]. split; [|split; [done|split]].
    + intros _. exists text, table. split; [done|]. split; [done|].
      by apply (assign_시도_ok_has_province table rows).
    + intros text' e [= <-] He. congruence.
    + intros text' table' r [= <-] Htable' Hr Hbad.
      assert (table' = table) as -> by congruence.
      destruct (assign_시도_raises table) as (e & He & _); [eauto|]. congruence.
  - split; [by right|]. split; [done|]. split; [done|]. split; done.
Qed.

(** X14. A run that finishes has done four things in this order: checked
    the path, read the file, written the report, printed the line that
    names the report. The report replaces whatever was at [OUTPUT_FILE];
    it is the template filled with the sunburst of the melted table (with
    plotly.js), the treemap of the frame and the scatter of the
    aggregated table, each drawn with the next of Plotly's identifiers. *)
Theorem finished_run_effects (w w' : world) (ns : namespace) :
  run w = (finished ns, w') ->
  files w' = <[OUTPUT_FILE := html ns]> (files w) /\
  events w' = events w ++ [ev_exists FILE_PATH true; ev_read FILE_PATH;
                           ev_write OUTPUT_FILE; ev_print success_message] /\
  contains OUTPUT_FILE success_message /\
  drawn w' = (3 + drawn w)%nat /\
  html ns = html_template (div_age ns) (div_region ns) (div_compare ns) /\
  div_age ns = to_html (sunburst (df_melted ns)) cdn (uuids w (drawn w)) /\
  div_region ns = to_html (treemap (df ns)) no_plotlyjs (uuids w (1 + drawn w)%nat) /\
  div_compare ns
  = to_html (scatter (city_sum ns)) no_plotlyjs (uuids w (2 + drawn w)%nat).
Proof.
  intros (text & table & rows & _ & _ & _ & -> & ->)%run_finished.
  unfold bindings, reported.
  cbn [files events drawn html div_age div_region div_compare df df_melted city_sum].
  repeat split. unfold contains. vm_compute. discriminate.
Qed.

(** X15. Whatever way a run ends, it leaves every file but the report as
    it was, the input file among them, and what the process had done
    before stays on record; a run that has not come to writing the report
    leaves all the files as they were. *)
Theorem run_touches_only_report (w : world) :
  (forall path, path <> OUTPUT_FILE -> files (run w).2 !! path = files w !! path) /\
  files (run w).2 !! FILE_PATH = files w !! FILE_PATH /\
  (exists done,
     events (run w).2 = events w ++ done /\
     (ev_write OUTPUT_FILE ∉ done -> files (run w).2 = files w)).
Proof.
  assert (Hframe : forall path, path <> OUTPUT_FILE ->
                                files (run w).2 !! path = files w !! path).
  { intros path Hpath. rewrite run_cases.
    destruct (files w !! FILE_PATH) as [text|]; [|done].
    destruct (read_csv text) as [table|]; [|done].
    destruct (assign_시도 table) as [rows|]; [|done].
    cbn [snd reported files]. by apply lookup_insert_ne. }
  split; [exact Hframe|]. split; [apply Hframe, paths_differ|].
  rewrite run_cases.
  destruct (files w !! FILE_PATH) as [text|].
  2:{ eexists. cbn [snd refused record events files].
      split; [by rewrite <- app_assoc|done]. }
  destruct (read_csv text) as [table|].
  2:{ eexists. cbn [snd loaded record events files].
      split; [by rewrite <- app_assoc|done]. }
  destruct (assign_시도 table) as [rows|].
  2:{ eexists. cbn [snd loaded record events files].
      split; [by rewrite <- app_assoc|done]. }
  eexists. cbn [snd reported events]. split; [reflexivity|].
  intros Hnot. exfalso. apply Hnot.
  apply elem_of_cons. right. apply elem_of_cons. right. apply elem_of_cons. by left.
Qed.

(** X16. When the parser raises, the process dies of that exception with
    status 1, after the existence check and the read and before anything
    is drawn, written or printed. *)
Theorem read_csv_failure_propagates (w : world) (text : string) (e : exception) :
  files w !! FILE_PATH = Some text -> read_csv text = Raise e ->
  run w = (died e, loaded w) /\
  exit_status (run w).1 = 1 /\
  files (loaded w) = files w /\ drawn (loaded w) = drawn w /\
  events (loaded w) = events w ++ [ev_exists FILE_PATH true; ev_read FILE_PATH].
Proof.
  intros Hfile Hraise. rewrite run_cases, Hfile, Hraise.
  repeat split. unfold loaded, record. cbn [events]. by rewrite <- app_assoc.
Qed.

(** X17. Running the script again where a finished run left off finishes
    too: it loads the same frame, renders the same three figures, now
    with the next three of Plotly's identifiers, and writes that report
    over the first. The files are then what the first run found, with the
    second report at [OUTPUT_FILE]. *)
Theorem rerun_same_figures (w w' : world) (ns : namespace) :
  run w = (finished ns, w') ->
  exists ns2 w'',
    run w' = (finished ns2, w'') /\
    df ns2 = df ns /\
    div_age ns2 = to_html (sunburst (df_melted ns)) cdn (uuids w (3 + drawn w)%nat) /\
    div_region ns2
    = to_html (treemap (df ns)) no_plotlyjs (uuids w (4 + drawn w)%nat) /\
    div_compare ns2
    = to_html (scatter (city_sum ns)) no_plotlyjs (uuids w (5 + drawn w)%nat) /\
    html ns2 = html_template (div_age ns2) (div_region ns2) (div_compare ns2) /\
    files w'' = <[OUTPUT_FILE := html ns2]> (files w).
Proof.
  intros (text & table & rows & Hfile & Htable & Hrows & -> & ->)%run_finished.
  assert (Hfile' : files (reported w (html (bindings rows (uuids w (drawn w))
              (uuids w (S (drawn w))) (uuids w (S (S (drawn w))))))) !! FILE_PATH
            = Some text).
  { unfold reported. cbn [files]. rewrite lookup_insert_ne; [done|].
    intros Heq. by apply paths_differ. }
  eexists _, _. split; [by apply (run_loads _ text table rows Hfile' Htable Hrows)|].
  unfold bindings, reported.
  cbn [files uuids drawn html df df_melted city_sum div_age div_region div_compare].
  repeat split. apply insert_insert_eq.
Qed.
End ProcessFacts.

Lemma finished_run_effects_witness :
  @run (sample_library sample_table) sample_world = (finished sample_ns, sample_report) /\
  files sample_report = <[OUTPUT_FILE := html sample_ns]> (files sample_world) /\
  drawn sample_report = 3%nat.
Proof.
  split; [exact sample_run|].
  destruct (@finished_run_effects (sample_library sample_table) sample_world
              sample_report sample_ns sample_run)
    as (Hfiles & _ & _ & Hdrawn & _).
  split; [exact Hfiles | exact Hdrawn].
Defined.

Lemma read_csv_failure_propagates_witness :
  files sample_world !! FILE_PATH = Some "csv"%string /\
  @read_csv failing_library "csv"%string = Raise (LoadError "UnicodeDecodeError") /\
  @run failing_library sample_world
  = (died (LoadError "UnicodeDecodeError"), loaded sample_world).
Proof.
  split; [exact sample_world_file|]. split; [reflexivity|].
  exact (proj1 (@read_csv_failure_propagates failing_library sample_world
                  "csv"%string (LoadError "UnicodeDecodeError")
                  sample_world_file eq_refl)).
Defined.

Lemma rerun_same_figures_witness :
  @run (sample_library sample_table) sample_world = (finished sample_ns, sample_report) /\
  exists ns2 w'',
    @run (sample_library sample_table) sample_report = (finished ns2, w'') /\
    df ns2 = sample_df /\
    files w'' = <[OUTPUT_FILE := html ns2]> (files sample_world).
Proof.
  split; [exact sample_run|].
  destruct (@rerun_same_figures (sample_library sample_table) sample_world
              sample_report sample_ns sample_run)
    as (ns2 & w'' & Hrun & Hdf & _ & _ & _ & _ & Hfiles).
  exists ns2, w''. split; [exact Hrun|]. split; [exact Hdf | exact Hfiles].
Defined.

(** ** Where the charts stand in the report *)

Lemma occurrences_pieces2 (p a0 f1 a1 t1 : string) (c : ascii) :
  a1 = String c t1 -> no_straddle p a0 = true -> char_in c p = false ->
  occurrences p f1 = [] ->
  occurrences p (a0 +:+ f1 +:+ a1)
  = map (fun z => z +:+ f1 +:+ a1) (occurrences p a0) ++ occurrences p a1.
Proof.
  intros E1 H0 Hc Hf1. rewrite (occurrences_app_l p a0 _ H0).
  by rewrite E1, (occurrences_app_r p f1 t1 _ Hf1 Hc).
Qed.

Lemma occurrences_pieces3 (p a0 f1 a1 f2 a2 t1 t2 : string) (c : ascii) :
  a1 = String c t1 -> a2 = String c t2 ->
  no_straddle p a0 = true -> no_straddle p a1 = true -> char_in c p = false ->
  occurrences p f1 = [] -> occurrences p f2 = [] ->
  occurrences p (a0 +:+ f1 +:+ a1 +:+ f2 +:+ a2)
  = map (fun z => z +:+ f1 +:+ a1 +:+ f2 +:+ a2) (occurrences p a0)
    ++ map (fun z => z +:+ f2 +:+ a2) (occurrences p a1)
    ++ occurrences p a2.
Proof.
  intros E1 E2 H0 H1 Hc Hf1 Hf2. rewrite (occurrences_app_l p a0 _ H0).
  rewrite (occurrences_after p f1 a1 _ t1 _ E1 Hc Hf1).
  rewrite (occurrences_app_l p a1 _ H1).
  by rewrite E2, (occurrences_app_r p f2 t2 _ Hf2 Hc).
Qed.

Section Pieces.
Variables (a0 a1 a2 a3 f1 f2 f3 t1 t2 t3 : string) (c : ascii).
Hypothesis (E1 : a1 = String c t1) (E2 : a2 = String c t2) (E3 : a3 = String c t3).
Hypothesis (Hopen : char_in c section_open = false).
Hypothesis (Hclose : char_in c section_close = false).
Hypothesis (Ho0 : no_straddle section_open a0 = true).
Hypothesis (Ho1 : no_straddle section_open a1 = true).
Hypothesis (Ho2 : no_straddle section_open a2 = true).
Hypothesis (Hc0 : no_straddle section_close a0 = true).
Hypothesis (Hc1 : no_straddle section_close a1 = true).
Hypothesis (Hc2 : no_straddle section_close a2 = true).
Hypothesis (Hq0 : forallb has_quote (occurrences section_open a0) = true).
Hypothesis (Hq1 : forallb has_quote (occurrences section_open a1) = true).
Hypothesis (Hq2 : forallb has_quote (occurrences section_open a2) = true).
Hypothesis (Hf1 : sectionless f1) (Hf2 : sectionless f2) (Hf3 : sectionless f3).

Lemma enclosing_section_pieces2 :
  enclosing_section (a0 +:+ f1 +:+ a1)
  = enclosing_of (count_occurrences section_close a0
                  + count_occurrences section_close a1)
      (section_ids a0 ++ section_ids a1).
Proof.
  destruct Hf1 as [Hfo Hfc].
  unfold enclosing_section, section_ids, attr_values, count_occurrences.
  rewrite (occurrences_pieces2 section_close a0 f1 a1 t1 c E1 Hc0 Hclose Hfc).
  rewrite (occurrences_pieces2 section_open a0 f1 a1 t1 c E1 Ho0 Hopen Hfo).
  by rewrite !map_app, !length_app, !length_map, (attr_values_closed _ _ Hq0).
Qed.

Lemma enclosing_section_pieces3 :
  enclosing_section (a0 +:+ f1 +:+ a1 +:+ f2 +:+ a2)
  = enclosing_of (count_occurrences section_close a0
                  + (count_occurrences section_close a1
                     + count_occurrences section_close a2))
      (section_ids a0 ++ section_ids a1 ++ section_ids a2).
Proof.
  destruct Hf1 as [Hfo1 Hfc1], Hf2 as [Hfo2 Hfc2].
  unfold enclosing_section, section_ids, attr_values, count_occurrences.
  rewrite (occurrences_pieces3 section_close a0 f1 a1 f2 a2 t1 t2 c
             E1 E2 Hc0 Hc1 Hclose Hfc1 Hfc2).
  rewrite (occurrences_pieces3 section_open a0 f1 a1 f2 a2 t1 t2 c
             E1 E2 Ho0 Ho1 Hopen Hfo1 Hfo2).
  by rewrite !map_app, !length_app, !length_map,
    (attr_values_closed _ _ Hq0), (attr_values_closed _ _ Hq1).
Qed.

Lemma enclosing_section_pieces4 :
  enclosing_section (a0 +:+ f1 +:+ a1 +:+ f2 +:+ a2 +:+ f3 +:+ a3)
  = enclosing_of (count_occurrences section_close a0
                  + (count_occurrences section_close a1
                     + (count_occurrences section_close a2
                        + count_occurrences section_close a3)))
      (section_ids a0 ++ section_ids a1 ++ section_ids a2 ++ section_ids a3).
Proof.
  destruct Hf1 as [Hfo1 Hfc1], Hf2 as [Hfo2 Hfc2], Hf3 as [Hfo3 Hfc3].
  unfold enclosing_section, section_ids, attr_values, count_occurrences.
  rewrite (occurrences_pieces section_close a0 a1 a2 a3 f1 f2 f3 t1 t2 t3 c
             E1 E2 E3 Hc0 Hc1 Hc2 Hclose Hfc1 Hfc2 Hfc3).
  rewrite (occurrences_pieces section_open a0 a1 a2 a3 f1 f2 f3 t1 t2 t3 c
             E1 E2 E3 Ho0 Ho1 Ho2 Hopen Hfo1 Hfo2 Hfo3).
  by rewrite !map_app, !length_app, !length_map,
    (attr_values_closed _ _ Hq0), (attr_values_closed _ _ Hq1),
    (attr_values_closed _ _ Hq2).
Qed.
End Pieces.

Section Placement.
Context `{Library}.

(** X18. In the report of a run that finishes, with fragments that neither
    open nor close a section, each chart stands in its own section: the
    text before the age fragment ends inside [age-analysis], the text
    before the region fragment inside [region-analysis], the text before
    the comparison fragment inside [comparison], and at the end of the
    report every section is closed. *)
Theorem charts_in_their_sections (w w' : world) (ns : namespace) :
  run w = (finished ns, w') ->
  sectionless (div_age ns) -> sectionless (div_region ns) ->
  sectionless (div_compare ns) ->
  html ns = html_before_age +:+ div_age ns +:+ html_age_to_region
            +:+ div_region ns +:+ html_region_to_compare
            +:+ div_compare ns +:+ html_after_compare /\
  enclosing_section html_before_age = Some "age-analysis"%string /\
  enclosing_section (html_before_age +:+ div_age ns +:+ html_age_to_region)
  = Some "region-analysis"%string /\
  enclosing_section (html_before_age +:+ div_age ns +:+ html_age_to_region
                     +:+ div_region ns +:+ html_region_to_compare)
  = Some "comparison"%string /\
  enclosing_section (html ns) = None.
Proof.
  intros (text & table & rows & _ & _ & _ & -> & _)%run_finished.
  unfold bindings. cbn [div_age div_region div_compare html].
  intros Ha Hr Hc.
  destruct template_parts_head as (t1 & t2 & t3 & E1 & E2 & E3).
  split; [reflexivity|]. split; [vm_compute; reflexivity|]. split; [|split].
  - rewrite (enclosing_section_pieces2 html_before_age html_age_to_region
               _ t1 _ E1 ltac:(vm_compute; reflexivity)
               ltac:(vm_compute; reflexivity) ltac:(vm_compute; reflexivity)
               ltac:(vm_compute; reflexivity) ltac:(vm_compute; reflexivity) Ha).
    vm_compute. reflexivity.
  - rewrite (enclosing_section_pieces3 html_before_age html_age_to_region
               html_region_to_compare _ _ t1 t2 _ E1 E2
               ltac:(vm_compute; reflexivity) ltac:(vm_compute; reflexivity)
               ltac:(vm_compute; reflexivity) ltac:(vm_compute; reflexivity)
               ltac:(vm_compute; reflexivity) ltac:(vm_compute; reflexivity)
               ltac:(vm_compute; reflexivity) ltac:(vm_compute; reflexivity)
               Ha Hr).
    vm_compute. reflexivity.
  - unfold html_template.
    rewrite (enclosing_section_pieces4 html_before_age html_age_to_region
               html_region_to_compare html_after_compare _ _ _ t1 t2 t3 _
               E1 E2 E3
               ltac:(vm_compute; reflexivity) ltac:(vm_compute; reflexivity)
               ltac:(vm_compute; reflexivity) ltac:(vm_compute; reflexivity)
               ltac:(vm_compute; reflexivity) ltac:(vm_compute; reflexivity)
               ltac:(vm_compute; reflexivity) ltac:(vm_compute; reflexivity)
               ltac:(vm_compute; reflexivity) ltac:(vm_compute; reflexivity)
               ltac:(vm_compute; reflexivity) Ha Hr Hc).
    vm_compute. reflexivity.
Qed.
End Placement.

Lemma sample_fragments_sectionless :
  sectionless (div_age sample_ns) /\ sectionless (div_region sample_ns) /\
  sectionless (div_compare sample_ns).
Proof. repeat split; vm_compute; reflexivity. Qed.

Lemma charts_in_their_sections_witness :
  @run (sample_library sample_table) sample_world = (finished sample_ns, sample_report) /\
  sectionless (div_age sample_ns) /\ sectionless (div_region sample_ns) /\
  sectionless (div_compare sample_ns) /\
  enclosing_section (html_before_age +:+ div_age sample_ns +:+ html_age_to_region)
  = Some "region-analysis"%string /\
  enclosing_section (html sample_ns) = None.
Proof.
  destruct sample_fragments_sectionless as (Ha & Hr & Hc).
  destruct (@charts_in_their_sections (sample_library sample_table) sample_world
              sample_report sample_ns sample_run Ha Hr Hc)
    as (_ & _ & Hregion & _ & Hend).
  split; [exact sample_run|]. split; [exact Ha|]. split; [exact Hr|].
  split; [exact Hc|]. split; [exact Hregion | exact Hend].
Defined.

(** ** Aggregation without overflow *)

(** X19. When the workplace counts are not negative and their total fits
    [int64], no aggregated workplace count has wrapped around: each is the
    exact sum over its province, not negative and not above the total of
    the column. *)
Theorem city_sum_workplace_exact (table : list row) (c : city_row) :
  Forall (fun r => 0 <= 사업장가입자 (csv r)) table ->
  exact_sum (map (fun r => 사업장가입자 (csv r)) table) < 2^63 ->
  c ∈ groupby_sum table ->
  c사업장가입자 c
  = exact_sum (map (fun r => 사업장가입자 (csv r))
                 (filter (fun r => 시도 r = c시도 c) table)) /\
  0 <= c사업장가입자 c <= exact_sum (map (fun r => 사업장가입자 (csv r)) table).
Proof.
  intros Hpos Hfit Hc. unfold groupby_sum in Hc.
  apply list_elem_of_fmap in Hc as (k & -> & _). simpl.
  pose proof (exact_sum_group_bounds (fun r => 사업장가입자 (csv r)) k table Hpos)
    as Hbounds.
  unfold group in *. rewrite int64_sum_exact, wrap64_id; [done|].
  unfold in_int64. lia.
Qed.

Lemma city_sum_workplace_exact_witness :
  Forall (fun r => 0 <= 사업장가입자 (csv r)) sample_df /\
  exact_sum (map (fun r => 사업장가입자 (csv r)) sample_df) < 2^63 /\
  (exists c, c ∈ groupby_sum sample_df /\ c시도 c = 부산 /\
             0 <= c사업장가입자 c <= 230).
Proof.
  assert (Hpos : Forall (fun r => 0 <= 사업장가입자 (csv r)) sample_df)
    by (repeat constructor; simpl; lia).
  assert (Hfit : exact_sum (map (fun r => 사업장가입자 (csv r)) sample_df) < 2^63)
    by (vm_compute; reflexivity).
  assert (Hc : agg_sum 부산 sample_df ∈ groupby_sum sample_df).
  { rewrite groupby_sum_sample_df. apply elem_of_cons. by left. }
  split; [exact Hpos|]. split; [exact Hfit|].
  exists (agg_sum 부산 sample_df). split; [exact Hc|]. split; [reflexivity|].
  exact (proj2 (city_sum_workplace_exact sample_df _ Hpos Hfit Hc)).
Defined.

Lemma exit_status_zero_only_if_witness :
  files empty_handed_world !! FILE_PATH = None /\
  exit_status (@run (sample_library sample_table) empty_handed_world).1 = 1.
Proof.
  split; [exact empty_handed_world_file|].
  exact (proj1 (proj2 (proj2 (@exit_status_zero_only_if
                                (sample_library sample_table) empty_handed_world)))
           empty_handed_world_file).
Defined.

Lemma run_touches_only_report_witness :
  files (@run (sample_library sample_table) empty_handed_world).2
  = files empty_handed_world.
Proof.
  destruct (@run_touches_only_report (sample_library sample_table)
              empty_handed_world) as (_ & _ & done & Hev & Hfiles).
  apply Hfiles.
  assert (Hrun : @run (sample_library sample_table) empty_handed_world
                 = (exited 1, refused empty_handed_world))
    by (rewrite run_cases, empty_handed_world_file; reflexivity).
  rewrite Hrun in Hev. cbn [snd refused record events empty_handed_world app] in Hev.
  rewrite <- Hev. intros Hin.
  apply elem_of_cons in Hin as [Hin|Hin]; [discriminate Hin|].
  apply elem_of_cons in Hin as [Hin|Hin]; [discriminate Hin|].
  by apply elem_of_nil in Hin.
Defined.
